(** * performance-profile-creator: the command layer and the CPU partitioning core

    A shallow embedding of [cmd/performance-profile-creator/cmd/root.go]
    (flag handling, [getDataFromFlags], [getProfileData], [validateFlag],
    [isStringInSlice]) and of the partitioning core that the command calls
    through package [profilecreator] (topology, homogeneity validation,
    partitioning, CPU-set formatting).

    Go strings are byte strings: [string] of [ascii] bytes.  Go [int] is the
    64-bit signed integer, carried as [Z].  A Go function returning
    [(T, error)] returns both values; it is embedded as a pair
    [T * option error], [None] standing for the nil error. *)

From Stdlib Require Import ZArith Ascii String List Lia Bool.
From Stdlib Require Import DecimalString DecimalNat DecimalPos Decimal.
From stdpp Require Import base tactics option list gmap sets strings sorting.

Local Open Scope string_scope.

(** ** Errors and outcomes *)

(** Error values.  [fmt.Errorf] keeps its format string and its operands, so
    that two errors are equal exactly when Go would print the same text from
    the same operands. *)
Inductive error : Type :=
| ErrNew (msg : string)
| NumError (func num : string) (err : error)
| Errorf (format : string) (operands : list operand)
with operand : Type :=
| OpString (s : string)
| OpStrings (l : list string)
| OpError (e : error).

(** [strconv.ErrSyntax] and [strconv.ErrRange]. *)
Definition ErrSyntax : error := ErrNew "invalid syntax".
Definition ErrRange : error := ErrNew "value out of range".

(** A call either returns or panics (nil dereference, index out of range). *)
Inductive outcome (A : Type) : Type :=
| Returned (a : A)
| Panicked (reason : string).
Arguments Returned {A} a.
Arguments Panicked {A} reason.

#[global] Instance outcome_ret : MRet outcome := fun _ a => Returned a.
#[global] Instance outcome_bind : MBind outcome := fun _ _ k o =>
  match o with
  | Returned a => k a
  | Panicked r => Panicked r
  end.

(** ** Package strconv *)

Module strconv.

Definition isDigit (c : ascii) : bool :=
  (48 <=? nat_of_ascii c)%nat && (nat_of_ascii c <=? 57)%nat.

Definition digitValue (c : ascii) : Z := Z.of_nat (nat_of_ascii c) - 48.

(** Value of a string of decimal digits, most significant first; [None]
    when some byte is not a digit. *)
Fixpoint digits (acc : Z) (s : string) : option Z :=
  match s with
  | EmptyString => Some acc
  | String c s' =>
      if isDigit c then digits (acc * 10 + digitValue c) s' else None
  end.

Definition maxInt : Z := 2 ^ 63 - 1.
Definition minInt : Z := - 2 ^ 63.

(** [strconv.Atoi]: an optional sign, then one or more decimal digits; the
    value is clamped and [ErrRange] reported when it leaves the [int]
    range. *)
Definition Atoi (s : string) : Z * option error :=
  let syntax := (0%Z, Some (NumError "Atoi" s ErrSyntax)) in
  let '(neg, body) :=
    match s with
    | String "-" r => (true, r)
    | String "+" r => (false, r)
    | _ => (false, s)
    end in
  match body with
  | EmptyString => syntax
  | _ =>
      match digits 0 body with
      | None => syntax
      | Some n =>
          let v := if neg then (- n)%Z else n in
          if (maxInt <? v)%Z then (maxInt, Some (NumError "Atoi" s ErrRange))
          else if (v <? minInt)%Z then (minInt, Some (NumError "Atoi" s ErrRange))
          else (v, None)
      end
  end.

(** [strconv.ParseBool]. *)
Definition ParseBool (str : string) : bool * option error :=
  if bool_decide (str ∈ ["1"; "t"; "T"; "true"; "TRUE"; "True"])
  then (true, None)
  else if bool_decide (str ∈ ["0"; "f"; "F"; "false"; "FALSE"; "False"])
  then (false, None)
  else (false, Some (NumError "ParseBool" str ErrSyntax)).

(** [strconv.Itoa], the text that an [IntVarP] flag of [init] shows for its
    value: a minus sign for a negative number, then the decimal digits
    without leading zeros. *)
Definition Itoa (i : Z) : string := NilZero.string_of_int (Z.to_int i).

End strconv.

(** ** Package unicode/utf8 and strings.EqualFold *)

Module utf8.

Local Open Scope Z_scope.

Definition RuneSelf : Z := 128.
Definition RuneError : Z := 65533.

Definition bytes (s : string) : list Z :=
  map (fun c => Z.of_nat (nat_of_ascii c)) (list_ascii_of_string s).

Definition between (lo hi b : Z) : bool := (lo <=? b) && (b <=? hi).
Definition cont (b : Z) : bool := between 128 191 b.

(** [utf8.DecodeRuneInString]: the first rune of a non-empty byte string
    and its width; an invalid or truncated encoding yields [RuneError]
    of width 1. *)
Definition DecodeRune (s : list Z) : Z * nat :=
  match s with
  | [] => (RuneError, 0%nat)
  | b0 :: r =>
      if (b0 <? RuneSelf) then (b0, 1%nat)
      else if between 194 223 b0 then
        match r with
        | b1 :: _ =>
            if cont b1
            then (Z.lor (Z.shiftl (Z.land b0 31) 6) (Z.land b1 63), 2%nat)
            else (RuneError, 1%nat)
        | _ => (RuneError, 1%nat)
        end
      else if between 224 239 b0 then
        match r with
        | b1 :: b2 :: _ =>
            let lo := if (b0 =? 224) then 160 else 128 in
            let hi := if (b0 =? 237) then 159 else 191 in
            if between lo hi b1 && cont b2
            then (Z.lor (Z.shiftl (Z.land b0 15) 12)
                    (Z.lor (Z.shiftl (Z.land b1 63) 6) (Z.land b2 63)), 3%nat)
            else (RuneError, 1%nat)
        | _ => (RuneError, 1%nat)
        end
      else if between 240 244 b0 then
        match r with
        | b1 :: b2 :: b3 :: _ =>
            let lo := if (b0 =? 240) then 144 else 128 in
            let hi := if (b0 =? 244) then 143 else 191 in
            if between lo hi b1 && cont b2 && cont b3
            then (Z.lor (Z.shiftl (Z.land b0 7) 18)
                    (Z.lor (Z.shiftl (Z.land b1 63) 12)
                       (Z.lor (Z.shiftl (Z.land b2 63) 6) (Z.land b3 63))), 4%nat)
            else (RuneError, 1%nat)
        | _ => (RuneError, 1%nat)
        end
      else (RuneError, 1%nat)
  end.

End utf8.

Module strings.

Local Open Scope Z_scope.

Section Fold.

(** [unicode.SimpleFold] on runes from [utf8.RuneSelf] upwards is driven
    by the [caseOrbit] and [CaseRanges] tables of Go's [unicode]
    package; the table is a parameter of the model. *)
Variable unicodeFold : Z -> Z.

(** The [asciiFold] table of package [unicode]: the next rune of the
    folding orbit.  The orbits of [k] and [s] leave ASCII (KELVIN SIGN
    U+212A, LATIN SMALL LETTER LONG S U+017F). *)
Definition asciiFold (r : Z) : Z :=
  if (r =? 107) then 8490
  else if (r =? 115) then 383
  else if utf8.between 65 90 r then (r + 32)
  else if utf8.between 97 122 r then (r - 32)
  else r.

Definition SimpleFold (r : Z) : Z :=
  if (r <? 0) || (1114111 <? r) then r
  else if (r <? utf8.RuneSelf) then asciiFold r
  else unicodeFold r.

(** [for r != sr && r < tr { r = unicode.SimpleFold(r) }]; the walk
    stays inside one folding orbit, so [steps] bounds it. *)
Fixpoint walkOrbit (steps : nat) (sr tr r : Z) : Z :=
  match steps with
  | O => r
  | S n =>
      if negb (r =? sr) && (r <? tr)
      then walkOrbit n sr tr (SimpleFold r)
      else r
  end.

(** One iteration of the loop of [strings.EqualFold] on the two runes
    just extracted: [true] for [continue], [false] for [return false]. *)
Definition foldMatch (sr0 tr0 : Z) : bool :=
  if (tr0 =? sr0) then true
  else
    let sr := Z.min sr0 tr0 in
    let tr := Z.max sr0 tr0 in
    if (tr <? utf8.RuneSelf)
    then utf8.between 65 90 sr && (tr =? sr + 32)
    else (walkOrbit (Z.to_nat tr) sr tr (SimpleFold sr) =? tr).

(** The loop [for s != "" && t != ""] of [strings.EqualFold], followed
    by [return s == t]; every iteration removes at least one byte of
    [s], which [fuel] counts. *)
Fixpoint foldLoop (fuel : nat) (s t : list Z) : bool :=
  match s, t with
  | [], [] => true
  | [], _ :: _ | _ :: _, [] => false
  | _ :: _, _ :: _ =>
      match fuel with
      | O => false
      | S n =>
          let '(sr, sw) := utf8.DecodeRune s in
          let '(tr, tw) := utf8.DecodeRune t in
          if foldMatch sr tr then foldLoop n (drop sw s) (drop tw t)
          else false
      end
  end.

Definition EqualFold (s t : string) : bool :=
  foldLoop (length (utf8.bytes s)) (utf8.bytes s) (utf8.bytes t).

End Fold.

End strings.

(** ** Package cmd: flags *)

(** The topology-manager policies of [k8s.io/kubelet/config/v1beta1]. *)
Module kubeletconfig.
Definition SingleNumaNodeTopologyManager : string := "single-numa-node".
Definition BestEffortTopologyManagerPolicy : string := "best-effort".
Definition RestrictedTopologyManagerPolicy : string := "restricted".
End kubeletconfig.

Definition validTMPolicyValues : list string :=
  [kubeletconfig.SingleNumaNodeTopologyManager;
   kubeletconfig.BestEffortTopologyManagerPolicy;
   kubeletconfig.RestrictedTopologyManagerPolicy].

Definition validPowerConsumptionModes : list string :=
  ["default"; "performance"; "low-latency"].

Record profileCreatorArgs : Type := {
  powerConsumptionMode : string;
  mustGatherDirPath : string;
  profileName : string;
  reservedCPUCount : Z;
  splitReservedCPUsAcrossNUMA : bool;
  disableHT : bool;
  rtKernel : bool;
  userLevelNetworking : bool;
  mcpName : string;
  tmPolicy : string
}.

(** [profileCreatorArgs{}]: every field at its zero value. *)
Definition zeroArgs : profileCreatorArgs :=
  {| powerConsumptionMode := ""; mustGatherDirPath := ""; profileName := "";
     reservedCPUCount := 0; splitReservedCPUsAcrossNUMA := false;
     disableHT := false; rtKernel := false; userLevelNetworking := false;
     mcpName := ""; tmPolicy := "" |}.

(** A command's persistent flag set: flag name to the text that
    [Value.String()] yields. *)
Abbreviation FlagSet := (gmap string string).

(** [init]: the flags registered on [rootCmd], at their defaults.  The
    [args] record that the flag variables point into is local to [init]
    and is not read again. *)
Definition init : FlagSet :=
  list_to_map
    [("reserved-cpu-count", "0");
     ("split-reserved-cpus-across-numa", "false");
     ("mcp-name", "worker-cnf");
     ("disable-ht", "false");
     ("rt-kernel", "true");
     ("user-level-networking", "false");
     ("power-consumption-mode", "default");
     ("must-gather-dir-path", "must-gather");
     ("profile-name", "performance");
     ("topology-manager-policy", "restricted")].

(** The flags of [init] are all present in [cmd]. *)
Definition registered (cmd : FlagSet) : Prop := dom init ⊆ dom cmd.

(** [cmd.Flag(name).Value.String()]; [cmd.Flag] is nil for an unknown name. *)
Definition Flag (cmd : FlagSet) (name : string) : outcome string :=
  match cmd !! name with
  | Some v => Returned v
  | None => Panicked "nil pointer dereference"
  end.

Section Cmd.

Variable unicodeFold : Z -> Z.

Fixpoint isStringInSlice (value : string) (candidates : list string) : bool :=
  match candidates with
  | [] => false
  | candidate :: rest =>
      if strings.EqualFold unicodeFold candidate value then true
      else isStringInSlice value rest
  end.

Definition validateFlag (value : string) (validValues : list string) : option error :=
  if isStringInSlice value validValues then None
  else Some (Errorf "Value '%s' is invalid. Valid values come from the set %v"
               [OpString value; OpStrings validValues]).

(** [if err != nil { return creatorArgs, fmt.Errorf(format, err) }]. *)
Definition orFail {A} (zero : A) (err : option error) (format : string)
    (k : outcome (A * option error)) : outcome (A * option error) :=
  match err with
  | Some e => Returned (zero, Some (Errorf format [OpError e]))
  | None => k
  end.

Definition getDataFromFlags (cmd : FlagSet)
    : outcome (profileCreatorArgs * option error) :=
  let creatorArgs := zeroArgs in
  mustGatherDirPath ← Flag cmd "must-gather-dir-path";
  mcpName ← Flag cmd "mcp-name";
  reservedText ← Flag cmd "reserved-cpu-count";
  let '(reservedCPUCount, err) := strconv.Atoi reservedText in
  orFail creatorArgs err "failed to parse reserved-cpu-count flag: %v" (
  splitText ← Flag cmd "split-reserved-cpus-across-numa";
  let '(splitReservedCPUsAcrossNUMA, err) := strconv.ParseBool splitText in
  orFail creatorArgs err "failed to parse split-reserved-cpus-across-numa flag: %v" (
  profileName ← Flag cmd "profile-name";
  tmPolicy ← Flag cmd "topology-manager-policy";
  orFail creatorArgs err "failed to parse topology-manager-policy flag: %v" (
  let err := validateFlag tmPolicy validTMPolicyValues in
  orFail creatorArgs err "invalid value for topology-manager-policy flag specified: %v" (
  if bool_decide (tmPolicy = kubeletconfig.SingleNumaNodeTopologyManager)
     && splitReservedCPUsAcrossNUMA
  then Returned (creatorArgs,
         Some (Errorf "not appropriate to split reserved CPUs in case of topology-manager-policy: %v"
                 [OpString tmPolicy]))
  else
  powerConsumptionMode ← Flag cmd "power-consumption-mode";
  orFail creatorArgs err "failed to parse power-consumption-mode flag: %v" (
  let err := validateFlag powerConsumptionMode validPowerConsumptionModes in
  orFail creatorArgs err "invalid value for power-consumption-mode flag specified: %v" (
  rtText ← Flag cmd "rt-kernel";
  let '(rtKernelEnabled, err) := strconv.ParseBool rtText in
  orFail creatorArgs err "failed to parse rt-kernel flag: %v" (
  let creatorArgs :=
    {| powerConsumptionMode := "";
       mustGatherDirPath := mustGatherDirPath;
       profileName := profileName;
       reservedCPUCount := reservedCPUCount;
       splitReservedCPUsAcrossNUMA := splitReservedCPUsAcrossNUMA;
       disableHT := false;
       rtKernel := rtKernelEnabled;
       userLevelNetworking := false;
       mcpName := mcpName;
       tmPolicy := tmPolicy |} in
  Returned (creatorArgs, None)))))))).

End Cmd.

(** ** Package cmd: profile data *)

Section Profile.

(** Pointer types of the collaborating packages ([*MachineConfigPool],
    [*corev1.Node], [*GHWHandler], [*metav1.LabelSelector]); a value of
    such a type may be nil, and dereferencing it may panic. *)
Variables MCP Node Handle LabelSelector : Type.

Record ProfileData : Type := {
  isolatedCPUs : string;
  reservedCPUs : string;
  nodeSelector : LabelSelector;
  performanceProfileName : string;
  topologyPoilcy : string;
  pdRtKernel : bool
}.

(** The functions of package [profilecreator] that [getProfileData] calls,
    over one fixed must-gather directory tree. *)
Record Collaborators : Type := {
  GetMCP : string -> string -> MCP * option error;
  GetNodeList : string -> list Node * option error;
  GetMCPList : string -> list MCP * option error;
  GetNodesForPool : MCP -> list MCP -> list Node -> list Node * option error;
  EnsureNodesHaveTheSameHardware : string -> list Node -> option error;
  NewGHWHandler : string -> Node -> Handle * option error;
  GetReservedAndIsolatedCPUs :
    Handle -> Z -> bool -> outcome (string * string * option error);
  GetName : Node -> outcome string;
  SpecNodeSelector : MCP -> outcome LabelSelector
}.

Variable pc : Collaborators.

(** [if err != nil { return nil, fmt.Errorf(format, subject, err) }]. *)
Definition orNil {A} (err : option error) (format subject : string)
    (k : outcome (option A * option error)) : outcome (option A * option error) :=
  match err with
  | Some e => Returned (None, Some (Errorf format [OpString subject; OpError e]))
  | None => k
  end.

(** [matchedNodes[0]]. *)
Definition first (matchedNodes : list Node) : outcome Node :=
  match matchedNodes with
  | n :: _ => Returned n
  | [] => Panicked "index out of range [0] with length 0"
  end.

Definition getProfileData (args : profileCreatorArgs)
    : outcome (option ProfileData * option error) :=
  let '(mcp, err) := GetMCP pc (mustGatherDirPath args) (mcpName args) in
  orNil err "failed to get MachineConfigPool with mcp-name %s: %v" (mcpName args) (
  let '(nodes, err) := GetNodeList pc (mustGatherDirPath args) in
  orNil err "failed to get Nodes with mcp-name %s: %v" (mcpName args) (
  let '(mcps, err) := GetMCPList pc (mustGatherDirPath args) in
  orNil err "failed to get the MCP list under %s: %v" (mustGatherDirPath args) (
  let '(matchedNodes, err) := GetNodesForPool pc mcp mcps nodes in
  orNil err "failed to find matching nodes for %s: %v" (mcpName args) (
  let err := EnsureNodesHaveTheSameHardware pc (mustGatherDirPath args) matchedNodes in
  match err with
  | Some e => Returned (None, Some (Errorf "targeted nodes differ: %v" [OpError e]))
  | None =>
      node0 ← first matchedNodes;
      nodeName ← GetName pc node0;
      let '(handle, err) := NewGHWHandler pc (mustGatherDirPath args) node0 in
      cpus ← GetReservedAndIsolatedCPUs pc handle (reservedCPUCount args)
                (splitReservedCPUsAcrossNUMA args);
      let '(reservedCPUs, isolatedCPUs, err) := cpus in
      orNil err "failed to get reserved and isolated CPUs for %s: %v" nodeName (
      selector ← SpecNodeSelector pc mcp;
      Returned (Some {| reservedCPUs := reservedCPUs;
                        isolatedCPUs := isolatedCPUs;
                        nodeSelector := selector;
                        performanceProfileName := profileName args;
                        topologyPoilcy := tmPolicy args;
                        pdRtKernel := rtKernel args |}, None))
  end)))).

(** [rootCmd.RunE]: the error returned, and the profile data handed to
    [createProfile] when there is none. *)
Definition RunE (unicodeFold : Z -> Z) (cmd : FlagSet)
    : outcome (option error * option ProfileData) :=
  '(profileCreatorArgsFromFlags, err) ← getDataFromFlags unicodeFold cmd;
  match err with
  | Some e =>
      Returned (Some (Errorf "failed to obtain data from flags %v" [OpError e]), None)
  | None =>
      '(profileData, err) ← getProfileData profileCreatorArgsFromFlags;
      match err with
      | Some e =>
          Returned (Some (Errorf "failed to create the profile: %v" [OpError e]), None)
      | None =>
          match profileData with
          | Some d => Returned (None, Some d)
          | None => Panicked "nil pointer dereference"
          end
      end
  end.

End Profile.

Arguments GetMCP {MCP Node Handle LabelSelector} c.
Arguments GetNodeList {MCP Node Handle LabelSelector} c.
Arguments GetMCPList {MCP Node Handle LabelSelector} c.
Arguments GetNodesForPool {MCP Node Handle LabelSelector} c.
Arguments EnsureNodesHaveTheSameHardware {MCP Node Handle LabelSelector} c.
Arguments NewGHWHandler {MCP Node Handle LabelSelector} c.
Arguments GetReservedAndIsolatedCPUs {MCP Node Handle LabelSelector} c.
Arguments GetName {MCP Node Handle LabelSelector} c.
Arguments SpecNodeSelector {MCP Node Handle LabelSelector} c.
Arguments getProfileData {MCP Node Handle LabelSelector} pc args.
Arguments RunE {MCP Node Handle LabelSelector} pc unicodeFold cmd.

(** ** Package profilecreator: the partitioning core *)

(** The sources of package [profilecreator] are not part of the command
    package; its operations are modelled from the specification of the core
    (TopologyModel, HomogeneityValidator, CPUPartitioner, CPUSetFormatter). *)

Module profilecreator.

Local Open Scope nat_scope.
Local Open Scope list_scope.

(** Modelled from the spec: the result of a core operation, a value or one
    of the error kinds of the error-handling design. *)
Inductive result (E A : Type) : Type :=
| Ok (a : A)
| Fail (e : E).
Arguments Ok {E A} a.
Arguments Fail {E A} e.

(** *** TopologyModel *)

(** Modelled from the spec: LogicalCPU, an integer id with its socket,
    NUMA node, physical core and sibling group. *)
Record LogicalCPU : Type := {
  cpuId : nat;
  socketId : nat;
  numaId : nat;
  coreId : nat;
  siblingGroupId : nat
}.

(** Modelled from the spec: Topology, an ordered collection of LogicalCPU;
    the indexes by NUMA node and by sibling group are the enumerations
    below. *)
Abbreviation Topology := (list LogicalCPU).

(** Modelled from the spec: an ascending enumeration of ids without
    repetition. *)
Definition ascending (ids : list nat) : list nat :=
  merge_sort Nat.le (remove_dups ids).

(** Modelled from the spec: enumerate NUMA nodes in ascending id order. *)
Definition numaNodes (t : Topology) : list nat :=
  ascending (numaId <$> t).

(** Modelled from the spec: the LogicalCPUs of one NUMA node. *)
Definition cpusOfNode (t : Topology) (n : nat) : list LogicalCPU :=
  filter (λ c, numaId c = n) t.

(** Modelled from the spec: enumerate sibling groups within a NUMA node in
    ascending id order. *)
Definition siblingGroups (t : Topology) (n : nat) : list nat :=
  ascending (siblingGroupId <$> cpusOfNode t n).

(** Modelled from the spec: the LogicalCPUs of sibling group [g] of node
    [n]. *)
Definition cpusOfGroup (t : Topology) (ng : nat * nat) : list LogicalCPU :=
  filter (λ c, numaId c = ng.1 ∧ siblingGroupId c = ng.2) t.

(** Modelled from the spec: enumerate LogicalCPUs within a sibling group in
    ascending id order. *)
Definition groupMembers (t : Topology) (ng : nat * nat) : list nat :=
  ascending (cpuId <$> cpusOfGroup t ng).

(** Modelled from the spec: the number of hardware threads of a sibling
    group. *)
Definition groupSize (t : Topology) (ng : nat * nat) : nat :=
  length (cpusOfGroup t ng).

(** Modelled from the spec: all sibling groups in ascending (NUMA node id,
    sibling-group id) order. *)
Definition allGroups (t : Topology) : list (nat * nat) :=
  n ← numaNodes t; pair n <$> siblingGroups t n.


(** Modelled from the spec: the Topology invariant that BuildTopology
    enforces: at least one sibling group, every LogicalCPU (id) in exactly
    one sibling group and one NUMA node, no sibling group spanning more
    than one NUMA node. *)
Definition validTopology (t : Topology) : Prop :=
  t ≠ [] ∧
  NoDup (cpuId <$> t) ∧
  Forall (λ c, Forall (λ d,
    siblingGroupId c = siblingGroupId d → numaId c = numaId d) t) t.

(** Modelled from the spec: raw hardware data, where the NUMA node or the
    core of a CPU may be unresolved. *)
Record RawCPU : Type := {
  rawId : nat;
  rawSocket : nat;
  rawNuma : option nat;
  rawCore : option nat;
  rawSiblings : nat
}.

(** Modelled from the spec: MalformedTopologyError, for unparsable or
    self-inconsistent hardware data. *)
Inductive MalformedTopologyError : Type :=
| UnresolvedAssignment (cpu : nat)
| InconsistentTopology.

(** Modelled from the spec: a raw CPU with both assignments resolved. *)
Definition resolve (r : RawCPU) : option LogicalCPU :=
  n ← rawNuma r; k ← rawCore r;
  Some {| cpuId := rawId r; socketId := rawSocket r; numaId := n;
          coreId := k; siblingGroupId := rawSiblings r |}.

(** Modelled from the spec: BuildTopology, the construction of a Topology
    from the hardware data that package [profilecreator] reads through its
    [GHWHandler]. *)
Definition BuildTopology (raw : list RawCPU)
    : result MalformedTopologyError Topology :=
  match list_find (λ r, resolve r = None) raw with
  | Some (_, r) => Fail (UnresolvedAssignment (rawId r))
  | None =>
      let t := omap resolve raw in
      if decide (validTopology t) then Ok t else Fail InconsistentTopology
  end.

(** *** CPUPartitioner *)

(** Modelled from the spec: CPUPartition, the reserved and the isolated
    set of LogicalCPU ids. *)
Record CPUPartition : Type := {
  reserved : gset nat;
  isolated : gset nat
}.

(** Modelled from the spec: the failures of Partition.
    InsufficientCPUsError carries the requested and the total count;
    InvalidRequestError the requested count and the nearest achievable
    counts below and above it. *)
Inductive PartitionError : Type :=
| InsufficientCPUsError (requested total : Z)
| InvalidRequestError (requested : Z) (below above : option Z).

(** Modelled from the spec: select whole sibling groups from the front of
    [groups] until [share] is met; [None] when whole groups cannot hit
    the share. *)
Fixpoint takeGroups {G} (size : G → nat) (share : nat) (groups : list G)
    : option (list G) :=
  match groups with
  | [] => if share =? 0 then Some [] else None
  | g :: rest =>
      if share =? 0 then Some []
      else if size g <=? share
           then cons g <$> takeGroups size (share - size g) rest
           else None
  end.

(** Modelled from the spec: the share of the [i]-th NUMA node (ascending id
    order) when [count] is allocated as evenly as possible across [k]
    nodes, the remainder going to the lowest-indexed nodes first. *)
Definition nodeShare (count k i : nat) : nat :=
  count / k + (if i <? count mod k then 1 else 0).

(** Modelled from the spec: step 1, within each NUMA node select whole
    sibling groups from the lowest id until the node's share is met. *)
Fixpoint selectAcrossNUMA (t : Topology) (count k i : nat) (nodes : list nat)
    : option (list (nat * nat)) :=
  match nodes with
  | [] => Some []
  | n :: rest =>
      chosen ← takeGroups (groupSize t) (nodeShare count k i)
                 (pair n <$> siblingGroups t n);
      others ← selectAcrossNUMA t count k (S i) rest;
      Some (chosen ++ others)
  end.

(** Modelled from the spec: steps 1 and 2, the sibling groups selected for
    the reserved partition. *)
Definition selectGroups (t : Topology) (count : nat) (splitAcrossNUMA : bool)
    : option (list (nat * nat)) :=
  if splitAcrossNUMA
  then selectAcrossNUMA t count (length (numaNodes t)) 0 (numaNodes t)
  else takeGroups (groupSize t) count (allGroups t).

(** Modelled from the spec: a count the partitioner can achieve: at least
    1, strictly less than the total, and hit by whole sibling groups. *)
Definition achievable (t : Topology) (splitAcrossNUMA : bool) (count : nat) : bool :=
  bool_decide (1 ≤ count < length t)
  && bool_decide (is_Some (selectGroups t count splitAcrossNUMA)).

(** Modelled from the spec: the nearest achievable count below the
    request. *)
Definition nearestBelow (t : Topology) (splitAcrossNUMA : bool) (count : Z)
    : option Z :=
  Z.of_nat <$> last (filter (λ c, achievable t splitAcrossNUMA c = true)
                       (seq 1 (Z.to_nat count - 1))).

(** Modelled from the spec: the nearest achievable count above the
    request. *)
Definition nearestAbove (t : Topology) (splitAcrossNUMA : bool) (count : Z)
    : option Z :=
  Z.of_nat <$> head (filter (λ c, achievable t splitAcrossNUMA c = true)
                       (seq (S (Z.to_nat count)) (length t - S (Z.to_nat count)))).

(** Modelled from the spec: the ids of the LogicalCPUs that lie in one of
    the chosen sibling groups. *)
Definition idsInside (t : Topology) (chosen : list (nat * nat)) : gset nat :=
  list_to_set (cpuId <$> filter (λ c, (numaId c, siblingGroupId c) ∈ chosen) t).

(** Modelled from the spec: step 3, all LogicalCPUs not selected become the
    isolated set. *)
Definition idsOutside (t : Topology) (chosen : list (nat * nat)) : gset nat :=
  list_to_set (cpuId <$> filter (λ c, (numaId c, siblingGroupId c) ∉ chosen) t).

(** Modelled from the spec: Partition, the operation behind
    [GetReservedAndIsolatedCPUs] of package [profilecreator]. *)
Definition Partition (t : Topology) (reservedCount : Z) (splitAcrossNUMA : bool)
    : result PartitionError CPUPartition :=
  let total := Z.of_nat (length t) in
  let invalid :=
    InvalidRequestError reservedCount
      (nearestBelow t splitAcrossNUMA reservedCount)
      (nearestAbove t splitAcrossNUMA reservedCount) in
  if (total <? reservedCount)%Z then Fail (InsufficientCPUsError reservedCount total)
  else if (reservedCount <? 1)%Z || (reservedCount =? total)%Z then Fail invalid
  else
    match selectGroups t (Z.to_nat reservedCount) splitAcrossNUMA with
    | Some chosen =>
        Ok {| reserved := idsInside t chosen; isolated := idsOutside t chosen |}
    | None => Fail invalid
    end.

(** *** HomogeneityValidator *)

(** Modelled from the spec: NodeHardwareSnapshot, a Topology with the
    identity of the node it was read from. *)
Record NodeHardwareSnapshot : Type := {
  nodeName : string;
  topology : Topology
}.

(** Modelled from the spec: HeterogeneousHardwareError(divergingNodes). *)
Inductive HeterogeneousHardwareError : Type :=
| HeterogeneousHardware (divergingNodes : list string).

(** Modelled from the spec: the count of sibling groups of each NUMA node,
    in ascending node order. *)
Definition groupsPerNode (t : Topology) : list nat :=
  (λ n, length (siblingGroups t n)) <$> numaNodes t.

(** Modelled from the spec: the sibling-group size distribution. *)
Definition sizeDistribution (t : Topology) : list nat :=
  merge_sort Nat.le (groupSize t <$> allGroups t).

(** Modelled from the spec: equality of two Topologies by shape: identical
    count of NUMA nodes, identical count of sibling groups per NUMA node,
    identical sibling-group size distribution. *)
Definition sameShape (a b : Topology) : bool :=
  bool_decide (length (numaNodes a) = length (numaNodes b))
  && bool_decide (groupsPerNode a = groupsPerNode b)
  && bool_decide (sizeDistribution a = sizeDistribution b).

(** Modelled from the spec: the snapshots after the first whose shape
    diverges from the first one's. *)
Definition diverging (head : NodeHardwareSnapshot)
    (others : list NodeHardwareSnapshot) : list NodeHardwareSnapshot :=
  filter (λ s, sameShape (topology head) (topology s) = false) others.

(** Modelled from the spec: Validate, the operation behind
    [EnsureNodesHaveTheSameHardware] of package [profilecreator], over a
    non-empty ordered sequence of snapshots. *)
Definition Validate (snapshots : list NodeHardwareSnapshot)
    : result HeterogeneousHardwareError unit :=
  match snapshots with
  | [] => Ok ()
  | head :: others =>
      match diverging head others with
      | [] => Ok ()
      | bad => Fail (HeterogeneousHardware (nodeName <$> bad))
      end
  end.

(** *** CPUSetFormatter *)

(** Modelled from the spec: MalformedRangeError, with the offending text. *)
Inductive MalformedRangeError : Type :=
| MalformedRange (text : string).

(** Modelled from the spec: a number as Format emits it, in decimal
    notation. *)
Definition decimal (n : nat) : string :=
  NilZero.string_of_uint (Nat.to_uint n).

(** Modelled from the spec: the number that a non-empty string of decimal
    digits denotes. *)
Definition parseDecimal (s : string) : option nat :=
  Nat.of_uint <$> NilZero.uint_of_string s.

(** Modelled from the spec: the maximal contiguous runs of an ascending
    list of ids; [first] and [last] delimit the run being extended. *)
Fixpoint contiguousRuns (first last : nat) (ids : list nat) : list (nat * nat) :=
  match ids with
  | [] => [(first, last)]
  | x :: rest =>
      if x =? S last then contiguousRuns first x rest
      else (first, last) :: contiguousRuns x x rest
  end.

(** Modelled from the spec: the maximal contiguous runs of the sorted
    ids. *)
Definition runs (ids : list nat) : list (nat * nat) :=
  match ids with
  | [] => []
  | x :: rest => contiguousRuns x x rest
  end.

(** Modelled from the spec: a run as [start-end], a single element as just
    the number. *)
Definition formatRun (r : nat * nat) : string :=
  if r.1 =? r.2 then decimal r.1
  else (decimal r.1 ++ "-" ++ decimal r.2)%string.

(** Modelled from the spec: Format, which renders the CPU sets that
    [GetReservedAndIsolatedCPUs] returns; sorts ids ascending, then emits
    the maximal contiguous runs joined by commas. *)
Definition Format (ids : gset nat) : string :=
  String.concat "," (formatRun <$> runs (merge_sort Nat.le (elements ids))).

(** Modelled from the spec: the pieces of [s] between occurrences of
    [sep]. *)
Fixpoint splitOn (sep : ascii) (s : string) : list string :=
  match s with
  | EmptyString => [EmptyString]
  | String c rest =>
      if Ascii.eqb c sep then EmptyString :: splitOn sep rest
      else
        match splitOn sep rest with
        | piece :: pieces => String c piece :: pieces
        | [] => [String c EmptyString]
        end
  end.

(** Modelled from the spec: looser spacing; a blank is a space or a tab. *)
Definition isBlank (c : ascii) : bool :=
  Ascii.eqb c " " || Ascii.eqb c "009".

(** Modelled from the spec: looser spacing; the blanks in front of an item
    or a bound are dropped. *)
Fixpoint trimLeft (s : string) : string :=
  match s with
  | EmptyString => EmptyString
  | String c rest => if isBlank c then trimLeft rest else s
  end.

(** Modelled from the spec: looser spacing; the blanks behind an item or a
    bound are dropped. *)
Fixpoint trimRight (s : string) : string :=
  match s with
  | EmptyString => EmptyString
  | String c rest =>
      match trimRight rest with
      | EmptyString => if isBlank c then EmptyString else String c EmptyString
      | kept => String c kept
      end
  end.

(** Modelled from the spec: looser spacing; an item or a bound without the
    blanks around it. *)
Definition trim (s : string) : string := trimRight (trimLeft s).

(** Modelled from the spec: one comma-separated item, a number or a range
    [start-end] with [start] not above [end]. *)
Definition parseItem (item : string) : option (gset nat) :=
  match splitOn "-" item with
  | [a] => n ← parseDecimal (trim a); Some {[ n ]}
  | [a; b] =>
      lo ← parseDecimal (trim a);
      hi ← parseDecimal (trim b);
      if lo <=? hi then Some (set_seq lo (S (hi - lo))) else None
  | _ => None
  end.

(** Modelled from the spec: Parse, the inverse of Format. *)
Definition Parse (s : string) : result MalformedRangeError (gset nat) :=
  match mapM parseItem (splitOn "," s) with
  | Some sets => Ok (⋃ sets)
  | None => Fail (MalformedRange s)
  end.

End profilecreator.

(** ** Notions used to state the properties *)




(** [args] with its [disableHT] field set to [b]. *)
Definition withDisableHT (b : bool) (args : profileCreatorArgs) : profileCreatorArgs :=
  {| powerConsumptionMode := powerConsumptionMode args;
     mustGatherDirPath := mustGatherDirPath args;
     profileName := profileName args;
     reservedCPUCount := reservedCPUCount args;
     splitReservedCPUsAcrossNUMA := splitReservedCPUsAcrossNUMA args;
     disableHT := b;
     rtKernel := rtKernel args;
     userLevelNetworking := userLevelNetworking args;
     mcpName := mcpName args;
     tmPolicy := tmPolicy args |}.

(** The collaborators [pc] with the error of [NewGHWHandler] replaced by
    [failure]; the handle it returns is unchanged. *)
Definition withHandlerError {MCP Node Handle LabelSelector}
    (failure : string → Node → option error)
    (pc : Collaborators MCP Node Handle LabelSelector)
    : Collaborators MCP Node Handle LabelSelector :=
  {| GetMCP := GetMCP pc;
     GetNodeList := GetNodeList pc;
     GetMCPList := GetMCPList pc;
     GetNodesForPool := GetNodesForPool pc;
     EnsureNodesHaveTheSameHardware := EnsureNodesHaveTheSameHardware pc;
     NewGHWHandler := λ dir node, ((NewGHWHandler pc dir node).1, failure dir node);
     GetReservedAndIsolatedCPUs := GetReservedAndIsolatedCPUs pc;
     GetName := GetName pc;
     SpecNodeSelector := SpecNodeSelector pc |}.



(** The number of reserved LogicalCPUs of partition [p] that lie on NUMA
    node [n]. *)
Definition reservedOnNode (t : profilecreator.Topology)
    (p : profilecreator.CPUPartition) (n : nat) : nat :=
  length (filter (λ c, profilecreator.numaId c = n
                       ∧ profilecreator.cpuId c ∈ profilecreator.reserved p) t).




(** A LogicalCPU with id [i] on socket and NUMA node [n], core and sibling
    group [g]. *)
Definition logicalCPU (i n g : nat) : profilecreator.LogicalCPU :=
  {| profilecreator.cpuId := i; profilecreator.socketId := n;
     profilecreator.numaId := n; profilecreator.coreId := g;
     profilecreator.siblingGroupId := g |}.

(** Two NUMA nodes of [perNode] LogicalCPUs each, two hardware threads per
    sibling group, ids assigned node by node. *)
Definition twoNodes (perNode : nat) : profilecreator.Topology :=
  (λ i, logicalCPU i (i / perNode) (i / 2)) <$> seq 0 (2 * perNode).

(** One NUMA node of [cpus] LogicalCPUs, two hardware threads per sibling
    group. *)
Definition oneNode (cpus : nat) : profilecreator.Topology :=
  (λ i, logicalCPU i 0 (i / 2)) <$> seq 0 cpus.

Definition snapshot (name : string) (t : profilecreator.Topology)
    : profilecreator.NodeHardwareSnapshot :=
  {| profilecreator.nodeName := name; profilecreator.topology := t |}.



(** The set of ids [first .. last] of a run. *)
Definition runSet (r : nat * nat) : gset nat := set_seq r.1 (S (r.2 - r.1)).

(** Runs in canonical compact form: each run is [start ≤ end], the runs are
    ascending, and each run is maximal, that is, separated from the next by
    at least one missing id. *)
Fixpoint canonicalRuns (rs : list (nat * nat)) : Prop :=
  match rs with
  | [] => True
  | r :: rest =>
      (r.1 ≤ r.2)%nat ∧
      match rest with
      | [] => True
      | next :: _ => (r.2 + 1 < next.1)%nat
      end ∧
      canonicalRuns rest
  end.

(** [text] is the canonical compact range form of the set [ids]. *)
Definition canonicalForm (text : string) (ids : gset nat) : Prop :=
  ∃ rs, canonicalRuns rs ∧ ⋃ (runSet <$> rs) = ids ∧
        text = String.concat "," (profilecreator.formatRun <$> rs).

(** Every character of [s] satisfies [P]. *)
Fixpoint allChars (P : ascii → Prop) (s : string) : Prop :=
  match s with
  | EmptyString => True
  | String c rest => P c ∧ allChars P rest
  end.

(** A character that is neither a separator nor a blank. *)
Definition plainChar (c : ascii) : Prop :=
  c ≠ ","%char ∧ c ≠ "-"%char ∧ profilecreator.isBlank c = false.

(** The ids of the two runs 0-3 and 8-11. *)
Definition twoRuns : gset nat := list_to_set [0; 1; 2; 3; 8; 9; 10; 11]%nat.

(** A must-gather tree with one node, on which [NewGHWHandler] fails while
    the CPU sets are still computed. *)
Definition failingHandler : Collaborators unit unit unit unit :=
  {| GetMCP := λ _ _, ((), None);
     GetNodeList := λ _, ([()], None);
     GetMCPList := λ _, ([()], None);
     GetNodesForPool := λ _ _ nodes, (nodes, None);
     EnsureNodesHaveTheSameHardware := λ _ _, None;
     NewGHWHandler := λ _ _, ((), Some (ErrNew "no such file or directory"));
     GetReservedAndIsolatedCPUs := λ _ _ _, Returned ("0-3", "4-15", None);
     GetName := λ _, Returned "worker-0";
     SpecNodeSelector := λ _, Returned () |}.

(** Two NUMA nodes of [perNode] LogicalCPUs each, one hardware thread per
    sibling group. *)
Definition twoNodesSingleThread (perNode : nat) : profilecreator.Topology :=
  (λ i, logicalCPU i (i / perNode) i) <$> seq 0 (2 * perNode).

(** ** Package cmd: the profile that is printed *)

(** [metav1.LabelSelector], of which [createProfile] reads [MatchLabels]. *)
Record LabelSelector : Type := {
  MatchLabels : gmap string string
}.

(** [performancev2.PerformanceProfile], with the fields that
    [createProfile] sets. *)
Record TypeMeta : Type := { Kind : string; APIVersion : string }.
Record ObjectMeta : Type := { Name : string }.
Record CPU : Type := { Isolated : string; Reserved : string }.
Record RealTimeKernel : Type := { Enabled : bool }.
Record NUMA : Type := { TopologyPolicy : string }.
Record PerformanceProfileSpec : Type := {
  SpecCPU : CPU;
  NodeSelector : gmap string string;
  SpecRealTimeKernel : RealTimeKernel;
  AdditionalKernelArgs : list string;
  SpecNUMA : NUMA
}.
Record PerformanceProfile : Type := {
  profileTypeMeta : TypeMeta;
  profileObjectMeta : ObjectMeta;
  Spec : PerformanceProfileSpec
}.

Section CreateProfile.

(** [performancev2.GroupVersion.String()] and [csvtools.MarshallObject],
    which writes the object to the writer and may return an error. *)
Variable GroupVersionString : string.
Variable MarshallObject : PerformanceProfile → string * option error.

(** [createProfile]: the text printed on standard output.  The node
    selector of the profile data is a pointer, nil when the pool has none;
    the error of [csvtools.MarshallObject] is dropped. *)
Definition createProfile (profileData : ProfileData (option LabelSelector))
    : outcome string :=
  let reserved := reservedCPUs _ profileData in
  let isolated := isolatedCPUs _ profileData in
  match nodeSelector _ profileData with
  | None => Panicked "nil pointer dereference"
  | Some selector =>
      let profile :=
        {| profileTypeMeta :=
             {| Kind := "PerformanceProfile"; APIVersion := GroupVersionString |};
           profileObjectMeta :=
             {| Name := performanceProfileName _ profileData |};
           Spec :=
             {| SpecCPU := {| Isolated := isolated; Reserved := reserved |};
                NodeSelector := MatchLabels selector;
                SpecRealTimeKernel := {| Enabled := pdRtKernel _ profileData |};
                AdditionalKernelArgs := [];
                SpecNUMA := {| TopologyPolicy := topologyPoilcy _ profileData |} |} |} in
      Returned (MarshallObject profile).1
  end.

(** [rootCmd.RunE] together with the text that its [createProfile] call
    prints. *)
Definition runRoot {MCP Node Handle : Type}
    (pc : Collaborators MCP Node Handle (option LabelSelector))
    (unicodeFold : Z → Z) (cmd : FlagSet) : outcome (option error * string) :=
  result ← RunE pc unicodeFold cmd;
  match result with
  | (Some e, _) => Returned (Some e, "")
  | (None, Some profileData) =>
      printed ← createProfile profileData;
      Returned (None, printed)
  | (None, None) => Panicked "nil pointer dereference"
  end.

End CreateProfile.

(** ** Notions used to state further properties *)

(** The arguments that [getDataFromFlags] builds from the parsed flag
    values. *)
Definition argsOf (dir mcp prof pol : string) (count : Z) (split rt : bool)
    : profileCreatorArgs :=
  {| powerConsumptionMode := "";
     mustGatherDirPath := dir;
     profileName := prof;
     reservedCPUCount := count;
     splitReservedCPUsAcrossNUMA := split;
     disableHT := false;
     rtKernel := rt;
     userLevelNetworking := false;
     mcpName := mcp;
     tmPolicy := pol |}.

(** Two sets of collaborators that agree on everything up to and including
    the hardware comparison of the matched nodes. *)
Definition sameUntilHardware {MCP Node Handle LabelSelector}
    (pc pc' : Collaborators MCP Node Handle LabelSelector) : Prop :=
  GetMCP pc = GetMCP pc' ∧ GetNodeList pc = GetNodeList pc' ∧
  GetMCPList pc = GetMCPList pc' ∧ GetNodesForPool pc = GetNodesForPool pc' ∧
  EnsureNodesHaveTheSameHardware pc = EnsureNodesHaveTheSameHardware pc'.

(** The collaborators [pc] with the matching of nodes to the pool replaced
    by [matching]. *)
Definition withNodesForPool {MCP Node Handle LabelSelector}
    (matching : MCP → list MCP → list Node → list Node * option error)
    (pc : Collaborators MCP Node Handle LabelSelector)
    : Collaborators MCP Node Handle LabelSelector :=
  {| GetMCP := GetMCP pc;
     GetNodeList := GetNodeList pc;
     GetMCPList := GetMCPList pc;
     GetNodesForPool := matching;
     EnsureNodesHaveTheSameHardware := EnsureNodesHaveTheSameHardware pc;
     NewGHWHandler := NewGHWHandler pc;
     GetReservedAndIsolatedCPUs := GetReservedAndIsolatedCPUs pc;
     GetName := GetName pc;
     SpecNodeSelector := SpecNodeSelector pc |}.

(** ** Command lines and must-gather trees used as instances *)

(** A command line whose reserved-cpu-count is not a number. *)
Definition unparsableCount : FlagSet := <["reserved-cpu-count" := "four"]> init.


(** A command line that sets the two flags whose values are not stored. *)
Definition lowLatencyNetworking : FlagSet :=
  <["power-consumption-mode" := "low-latency"]>
    (<["user-level-networking" := "true"]> init).

(** A command line asking for the single-NUMA-node policy together with
    splitting across NUMA nodes. *)
Definition exactSplit : FlagSet :=
  <["topology-manager-policy" := "single-numa-node"]>
    (<["split-reserved-cpus-across-numa" := "1"]> init).

(** A command line that spells the policy with a capital. *)
Definition capitalRestricted : FlagSet :=
  <["topology-manager-policy" := "Restricted"]> init.

(** A must-gather tree whose matched nodes differ in hardware. *)
Definition differingNodes : Collaborators unit unit unit unit :=
  {| GetMCP := λ _ _, ((), None);
     GetNodeList := λ _, ([(); ()], None);
     GetMCPList := λ _, ([()], None);
     GetNodesForPool := λ _ _ nodes, (nodes, None);
     EnsureNodesHaveTheSameHardware :=
       λ _ _, Some (ErrNew "nodes worker-0 and worker-1 have different topology");
     NewGHWHandler := λ _ _, ((), None);
     GetReservedAndIsolatedCPUs := λ _ _ _, Returned ("0-3", "4-15", None);
     GetName := λ _, Returned "worker-0";
     SpecNodeSelector := λ _, Returned () |}.

(** The tree [differingNodes] with other CPU sets and no node name. *)
Definition differingNodesOtherCPUs : Collaborators unit unit unit unit :=
  {| GetMCP := GetMCP differingNodes;
     GetNodeList := GetNodeList differingNodes;
     GetMCPList := GetMCPList differingNodes;
     GetNodesForPool := GetNodesForPool differingNodes;
     EnsureNodesHaveTheSameHardware := EnsureNodesHaveTheSameHardware differingNodes;
     NewGHWHandler := λ _ _, ((), Some (ErrNew "no such file or directory"));
     GetReservedAndIsolatedCPUs := λ _ _ _, Returned ("0-1", "2-7", None);
     GetName := λ _, Panicked "nil pointer dereference";
     SpecNodeSelector := λ _, Returned () |}.

(** A must-gather tree with one node in a pool that selects the worker-cnf
    role. *)
Definition workerCnfPool : Collaborators unit unit unit (option LabelSelector) :=
  {| GetMCP := λ _ _, ((), None);
     GetNodeList := λ _, ([()], None);
     GetMCPList := λ _, ([()], None);
     GetNodesForPool := λ _ _ nodes, (nodes, None);
     EnsureNodesHaveTheSameHardware := λ _ _, None;
     NewGHWHandler := λ _ _, ((), None);
     GetReservedAndIsolatedCPUs := λ _ _ _, Returned ("0-3", "4-15", None);
     GetName := λ _, Returned "worker-0";
     SpecNodeSelector :=
       λ _, Returned (Some {| MatchLabels :=
                                {["node-role.kubernetes.io/worker-cnf" := ""]} |}) |}.

(** A marshaller that writes the two CPU sets of a profile. *)
Definition marshallCPUSets (profile : PerformanceProfile) : string * option error :=
  (String.append (Reserved (SpecCPU (Spec profile)))
     (String.append ";" (Isolated (SpecCPU (Spec profile)))), None).

(** * Properties *)

(** ** The command layer *)

Section FlagFacts.

Variable unicodeFold : Z → Z.

Lemma registered_lookup (cmd : FlagSet) (name : string) :
  registered cmd → name ∈ dom init → ∃ v, cmd !! name = Some v.
Proof.
  intros Hreg Hin. apply Hreg in Hin. by apply elem_of_dom in Hin.
Qed.

(** [isStringInSlice] is the existence of a candidate that folds to the
    value. *)
Lemma isStringInSlice_spec (value : string) (candidates : list string) :
  isStringInSlice unicodeFold value candidates = true ↔
  ∃ c, c ∈ candidates ∧ strings.EqualFold unicodeFold c value = true.
Proof.
  induction candidates as [|c cs IH]; simpl.
  - split; [done | intros (c & Hc & _); by apply elem_of_nil in Hc].
  - destruct (strings.EqualFold unicodeFold c value) eqn:E.
    + split; [intros _; exists c; split; [left | done] | done].
    + rewrite IH. split.
      * intros (d & Hd & Hf). exists d. split; [by right | done].
      * intros (d & Hd & Hf). apply elem_of_cons in Hd as [-> | Hd].
        -- congruence.
        -- by exists d.
Qed.

Lemma validateFlag_None (value : string) (validValues : list string) :
  validateFlag unicodeFold value validValues = None ↔
  isStringInSlice unicodeFold value validValues = true.
Proof.
  unfold validateFlag.
  destruct (isStringInSlice unicodeFold value validValues); split; done.
Qed.

End FlagFacts.

Section FoldFacts.

Variable unicodeFold : Z → Z.

Local Open Scope Z_scope.




Lemma DecodeRune_width (b : Z) (s : list Z) : (1 ≤ (utf8.DecodeRune (b :: s)).2)%nat.
Proof. unfold utf8.DecodeRune. repeat case_match; simpl; lia. Qed.

(** The loop of [strings.EqualFold] consumes at least one byte of [s] in
    every iteration: any fuel from the length of [s] upwards gives the same
    answer. *)
Lemma foldLoop_fuel (s t : list Z) (n m : nat) :
  (length s ≤ n)%nat → (length s ≤ m)%nat →
  strings.foldLoop unicodeFold n s t = strings.foldLoop unicodeFold m s t.
Proof.
  revert m s t. induction n as [|n IH]; intros m s t Hn Hm.
  - destruct s; [| simpl in Hn; lia]. by destruct m, t.
  - destruct s as [|a s], t as [|b t]; try by destruct m.
    destruct m as [|m]; [simpl in Hm; lia |]. cbn [strings.foldLoop].
    pose proof (DecodeRune_width a s) as Hw.
    destruct (utf8.DecodeRune (a :: s)) as [sr sw].
    destruct (utf8.DecodeRune (b :: t)) as [tr tw].
    destruct (strings.foldMatch unicodeFold sr tr); [| done].
    simpl in Hw, Hn, Hm. apply IH; rewrite length_drop; simpl; lia.
Qed.


End FoldFacts.

Section FlagClaims.

Variable unicodeFold : Z → Z.

Lemma lookup_outside_disable_ht (cmd1 cmd2 : FlagSet) (name : string) :
  delete "disable-ht" cmd1 = delete "disable-ht" cmd2 →
  name ≠ "disable-ht" → cmd1 !! name = cmd2 !! name.
Proof.
  intros Heq Hne.
  rewrite <- (lookup_delete_ne cmd1 "disable-ht" name) by done.
  rewrite Heq. by rewrite lookup_delete_ne.
Qed.

Lemma getDataFromFlags_disableHT (cmd : FlagSet) args err :
  getDataFromFlags unicodeFold cmd = Returned (args, err) → disableHT args = false.
Proof.
  unfold getDataFromFlags, Flag, orFail. cbn [mbind outcome_bind].
  repeat (case_match; cbn [mbind outcome_bind]; try done);
    intros [= <- <-]; reflexivity.
Qed.

(** C7: whenever the topology-manager-policy flag holds the
    single-NUMA-node policy and split-reserved-cpus-across-numa parses to
    true, [getDataFromFlags] returns an error (with the zero arguments),
    and the command ends with that error whatever the collaborators are:
    no partitioning is performed. *)
Theorem getDataFromFlags_rejects_split_under_single_numa
    (cmd : FlagSet) (splitText : string) :
  registered cmd →
  cmd !! "topology-manager-policy"
    = Some kubeletconfig.SingleNumaNodeTopologyManager →
  cmd !! "split-reserved-cpus-across-numa" = Some splitText →
  strconv.ParseBool splitText = (true, None) →
  ∃ e,
    getDataFromFlags unicodeFold cmd = Returned (zeroArgs, Some e) ∧
    ∀ (MCP Node Handle LabelSelector : Type)
      (pc : Collaborators MCP Node Handle LabelSelector),
      RunE pc unicodeFold cmd
      = Returned (Some (Errorf "failed to obtain data from flags %v" [OpError e]),
                  None).
Proof.
  intros Hreg Hpol Hsplit Hbool.
  destruct (registered_lookup cmd "must-gather-dir-path" Hreg) as [dir Hdir];
    [by vm_compute |].
  destruct (registered_lookup cmd "mcp-name" Hreg) as [mcp Hmcp]; [by vm_compute |].
  destruct (registered_lookup cmd "reserved-cpu-count" Hreg) as [cnt Hcnt];
    [by vm_compute |].
  destruct (registered_lookup cmd "profile-name" Hreg) as [prof Hprof];
    [by vm_compute |].
  assert (∃ e, getDataFromFlags unicodeFold cmd = Returned (zeroArgs, Some e))
    as [e He].
  { unfold getDataFromFlags, Flag, orFail.
    rewrite Hdir, Hmcp, Hcnt. cbn [mbind outcome_bind].
    destruct (strconv.Atoi cnt) as [n [err|]]; [by eexists |].
    rewrite Hsplit. cbn [mbind outcome_bind]. rewrite Hbool.
    rewrite Hprof, Hpol. cbn [mbind outcome_bind].
    by eexists. }
  exists e. split; [done |].
  intros MCP Node Handle LabelSelector pc. unfold RunE. by rewrite He.
Qed.

(** C8: two flag sets that differ at most in the value of disable-ht give
    the same outcome of [getDataFromFlags]; the [disableHT] field of the
    returned arguments is never set; [getProfileData] does not read that
    field, so the calls it makes, [GetReservedAndIsolatedCPUs] among them,
    and the whole run are the same for both flag sets. *)
Theorem disable_ht_not_threaded (cmd1 cmd2 : FlagSet) :
  delete "disable-ht" cmd1 = delete "disable-ht" cmd2 →
  getDataFromFlags unicodeFold cmd1 = getDataFromFlags unicodeFold cmd2 ∧
  (∀ args err,
     getDataFromFlags unicodeFold cmd1 = Returned (args, err) →
     disableHT args = false) ∧
  ∀ (MCP Node Handle LabelSelector : Type)
    (pc : Collaborators MCP Node Handle LabelSelector),
    (∀ args b, getProfileData pc (withDisableHT b args) = getProfileData pc args) ∧
    RunE pc unicodeFold cmd1 = RunE pc unicodeFold cmd2.
Proof.
  intros Heq.
  assert (getDataFromFlags unicodeFold cmd1 = getDataFromFlags unicodeFold cmd2)
    as Hsame.
  { unfold getDataFromFlags, Flag.
    by rewrite !(lookup_outside_disable_ht cmd1 cmd2 _ Heq) by done. }
  split; [done |]. split; [apply getDataFromFlags_disableHT |].
  intros MCP Node Handle LabelSelector pc. split.
  - intros args b. reflexivity.
  - unfold RunE. by rewrite Hsame.
Qed.

End FlagClaims.

Lemma disable_ht_not_threaded_witness :
  delete "disable-ht" (<["disable-ht" := "true"]> init) = delete "disable-ht" init ∧
  getDataFromFlags (λ r, r) (<["disable-ht" := "true"]> init)
  = getDataFromFlags (λ r, r) init.
Proof.
  assert (delete "disable-ht" (<["disable-ht" := "true"]> init)
          = delete "disable-ht" init) as H by apply delete_insert_eq.
  split; [exact H |].
  exact (proj1 (disable_ht_not_threaded (λ r, r) _ _ H)).
Defined.

Lemma getDataFromFlags_rejects_split_under_single_numa_witness :
  ∃ e, getDataFromFlags (λ r, r)
         (<["topology-manager-policy" := "single-numa-node"]>
            (<["split-reserved-cpus-across-numa" := "true"]> init))
       = Returned (zeroArgs, Some e).
Proof.
  destruct (getDataFromFlags_rejects_split_under_single_numa (λ r, r)
              (<["topology-manager-policy" := "single-numa-node"]>
                 (<["split-reserved-cpus-across-numa" := "true"]> init)) "true")
    as [e [He _]].
  - unfold registered. rewrite !dom_insert_L. set_solver.
  - reflexivity.
  - reflexivity.
  - reflexivity.
  - by exists e.
Defined.

Section ProfileClaims.

Context {MCP Node Handle LabelSelector : Type}.
Variable pc : Collaborators MCP Node Handle LabelSelector.

Lemma getProfileData_withHandlerError (args : profileCreatorArgs) failure :
  getProfileData (withHandlerError failure pc) args = getProfileData pc args.
Proof.
  unfold getProfileData, withHandlerError, orNil. cbn.
  destruct (GetMCP pc _ _) as [m [?|]]; [done |].
  destruct (GetNodeList pc _) as [ns [?|]]; [done |].
  destruct (GetMCPList pc _) as [ms [?|]]; [done |].
  destruct (GetNodesForPool pc _ _ _) as [matched [?|]]; [done |].
  destruct (EnsureNodesHaveTheSameHardware pc _ _); [done |].
  destruct (first Node matched) as [n0|]; [cbn | done].
  destruct (GetName pc n0); [cbn | done].
  by destruct (NewGHWHandler pc _ n0) as [h ?].
Qed.

(** C9: [getProfileData] never returns the error of [NewGHWHandler].  When
    every earlier step succeeds, [NewGHWHandler] fails with [e] and the
    following [GetReservedAndIsolatedCPUs] call succeeds, it returns the
    profile data and a nil error; and replacing the error of
    [NewGHWHandler] by any other leaves the outcome unchanged. *)
Theorem getProfileData_drops_handler_error
    (args : profileCreatorArgs) (mcp : MCP) (nodes : list Node)
    (mcps : list MCP) (node0 : Node) (others : list Node) (nodeName : string)
    (handle : Handle) (e : error) (reservedSet isolatedSet : string)
    (selector : LabelSelector) :
  GetMCP pc (mustGatherDirPath args) (mcpName args) = (mcp, None) →
  GetNodeList pc (mustGatherDirPath args) = (nodes, None) →
  GetMCPList pc (mustGatherDirPath args) = (mcps, None) →
  GetNodesForPool pc mcp mcps nodes = (node0 :: others, None) →
  EnsureNodesHaveTheSameHardware pc (mustGatherDirPath args) (node0 :: others) = None →
  GetName pc node0 = Returned nodeName →
  NewGHWHandler pc (mustGatherDirPath args) node0 = (handle, Some e) →
  GetReservedAndIsolatedCPUs pc handle (reservedCPUCount args)
    (splitReservedCPUsAcrossNUMA args) = Returned (reservedSet, isolatedSet, None) →
  SpecNodeSelector pc mcp = Returned selector →
  getProfileData pc args
  = Returned (Some {| reservedCPUs := reservedSet;
                      isolatedCPUs := isolatedSet;
                      nodeSelector := selector;
                      performanceProfileName := profileName args;
                      topologyPoilcy := tmPolicy args;
                      pdRtKernel := rtKernel args |}, None) ∧
  ∀ failure, getProfileData (withHandlerError failure pc) args = getProfileData pc args.
Proof.
  intros Hmcp Hnodes Hmcps Hpool Hsame Hname Hhandle Hcpus Hsel. split.
  - unfold getProfileData, orNil, first.
    rewrite Hmcp, Hnodes, Hmcps, Hpool, Hsame. cbn [mbind outcome_bind].
    rewrite Hname. cbn [mbind outcome_bind]. rewrite Hhandle, Hcpus.
    cbn [mbind outcome_bind]. rewrite Hsel. reflexivity.
  - apply getProfileData_withHandlerError.
Qed.

End ProfileClaims.

Lemma getProfileData_drops_handler_error_witness :
  getProfileData failingHandler zeroArgs
  = Returned (Some {| reservedCPUs := "0-3"; isolatedCPUs := "4-15";
                      nodeSelector := (); performanceProfileName := "";
                      topologyPoilcy := ""; pdRtKernel := false |}, None).
Proof.
  exact (proj1 (getProfileData_drops_handler_error failingHandler zeroArgs
                  () [()] [()] () [] "worker-0" ()
                  (ErrNew "no such file or directory") "0-3" "4-15" ()
                  eq_refl eq_refl eq_refl eq_refl eq_refl eq_refl eq_refl
                  eq_refl eq_refl)).
Defined.




(** ** The partitioning core *)

Import profilecreator.

Section Enumerations.

Local Open Scope nat_scope.










End Enumerations.

Section Selection.

Local Open Scope nat_scope.



Lemma filter_none {A} (P : A → Prop) `{!∀ x, Decision (P x)} (l : list A) :
  (∀ x, x ∈ l → ¬ P x) → filter P l = [].
Proof.
  induction l as [|x l IH]; intros Hall; [done |].
  rewrite filter_cons_False by (apply Hall; left).
  apply IH. intros y Hy. apply Hall. by right.
Qed.










End Selection.

Section Partitioning.

Local Open Scope nat_scope.







End Partitioning.






Section SplitAcrossNUMA.

Local Open Scope nat_scope.




End SplitAcrossNUMA.



(** ** Homogeneity validation *)

Lemma Validate_same_shape (head : NodeHardwareSnapshot)
    (others : list NodeHardwareSnapshot) :
  Forall (λ s, sameShape (topology head) (topology s) = true) others →
  Validate (head :: others) = Ok ().
Proof.
  intros Hall. unfold Validate, diverging.
  rewrite (filter_none _ others); [done |].
  intros s Hs Hbad. eapply Forall_forall in Hall; [| exact Hs]. congruence.
Qed.

(** C6: [Validate] succeeds on a sequence of exactly one snapshot; when some
    snapshot diverges in shape from the first, it fails with
    HeterogeneousHardwareError, and the nodes it names are exactly the
    diverging ones, every one of them. *)
Theorem Validate_names_every_diverging_node
    (head bad : NodeHardwareSnapshot) (others : list NodeHardwareSnapshot) :
  bad ∈ others →
  sameShape (topology head) (topology bad) = false →
  Validate [head] = Ok () ∧
  ∃ names,
    Validate (head :: others) = Fail (HeterogeneousHardware names) ∧
    (∀ s, s ∈ others → sameShape (topology head) (topology s) = false →
          nodeName s ∈ names) ∧
    (∀ name, name ∈ names →
       ∃ s, s ∈ others ∧ nodeName s = name
            ∧ sameShape (topology head) (topology s) = false).
Proof.
  intros Hbad Hshape. split; [done |].
  exists (nodeName <$> diverging head others).
  assert (bad ∈ diverging head others) as Hin by by apply list_elem_of_filter.
  split; [| split].
  - unfold Validate. destruct (diverging head others); [| done].
    by apply elem_of_nil in Hin.
  - intros s Hs Hdiv. apply list_elem_of_fmap. exists s. split; [done |].
    by apply list_elem_of_filter.
  - intros name (s & -> & Hs)%list_elem_of_fmap.
    apply list_elem_of_filter in Hs as [Hdiv Hs]. eauto.
Qed.

Lemma Validate_names_every_diverging_node_witness :
  Validate [snapshot "worker-0" (twoNodes 4); snapshot "worker-1" (twoNodes 4);
            snapshot "worker-2" (oneNode 8); snapshot "worker-3" (oneNode 6)]
  = Fail (HeterogeneousHardware ["worker-2"; "worker-3"]).
Proof.
  destruct (Validate_names_every_diverging_node
              (snapshot "worker-0" (twoNodes 4)) (snapshot "worker-2" (oneNode 8))
              [snapshot "worker-1" (twoNodes 4); snapshot "worker-2" (oneNode 8);
               snapshot "worker-3" (oneNode 6)])
    as [_ (names & Hfail & _)].
  - right. left.
  - by vm_compute.
  - by vm_compute.
Defined.

(** ** Rejected requests *)

Section Nearest.

Local Open Scope nat_scope.

Context (P : nat → Prop) `{!∀ x, Decision (P x)}.



End Nearest.

Section Rejection.




End Rejection.





(** ** CPU-set formatting *)

Section Text.

Lemma allChars_impl (P Q : ascii → Prop) (s : string) :
  (∀ c, P c → Q c) → allChars P s → allChars Q s.
Proof. intros HPQ. induction s; simpl; [done | intros [? ?]; auto]. Qed.

Lemma allChars_app (P : ascii → Prop) (s r : string) :
  allChars P s → allChars P r → allChars P (s ++ r).
Proof. intros Hs Hr. induction s; simpl in *; [done | destruct Hs; auto]. Qed.

Lemma NilEmpty_digits_plain (d : Decimal.uint) :
  allChars plainChar (NilEmpty.string_of_uint d).
Proof. induction d; simpl; repeat split; done. Qed.

Lemma decimal_plain (n : nat) : allChars plainChar (decimal n).
Proof.
  unfold decimal, NilZero.string_of_uint.
  destruct (Nat.to_uint n); try apply (NilEmpty_digits_plain (_ _)).
  simpl. repeat split; done.
Qed.

Lemma decimal_nonempty (n : nat) : decimal n ≠ "".
Proof. unfold decimal, NilZero.string_of_uint. by destruct (Nat.to_uint n). Qed.

Lemma parseDecimal_decimal (n : nat) : parseDecimal (decimal n) = Some n.
Proof.
  unfold parseDecimal, decimal.
  destruct (Nat.to_uint n) as [| | | | | | | | | |] eqn:E;
    try (rewrite NilZero.usu by done; simpl; rewrite <- E;
         by rewrite DecimalNat.Unsigned.of_to).
  simpl. f_equal. rewrite <- (DecimalNat.Unsigned.of_to n), E. done.
Qed.

Lemma splitOn_plain (sep : ascii) (s : string) :
  allChars (λ c, c ≠ sep) s → splitOn sep s = [s].
Proof.
  induction s as [|c s IH]; simpl; [done |]. intros [Hc Hs].
  destruct (Ascii.eqb_spec c sep); [done |]. by rewrite IH.
Qed.

Lemma splitOn_app (sep : ascii) (s rest : string) :
  allChars (λ c, c ≠ sep) s →
  splitOn sep (s ++ String sep rest) = s :: splitOn sep rest.
Proof.
  induction s as [|c s IH]; simpl.
  - intros _. by rewrite Ascii.eqb_refl.
  - intros [Hc Hs]. destruct (Ascii.eqb_spec c sep); [done |]. by rewrite IH.
Qed.

Lemma splitOn_concat (sep : ascii) (items : list string) :
  items ≠ [] → Forall (allChars (λ c, c ≠ sep)) items →
  splitOn sep (String.concat (String sep "") items) = items.
Proof.
  induction items as [|x items IH]; [done |]. intros _ Hall.
  apply Forall_cons in Hall as [Hx Hitems].
  destruct items as [|y items].
  - simpl. by apply splitOn_plain.
  - change (String.concat (String sep "") (x :: y :: items))
      with (x ++ String sep (String.concat (String sep "") (y :: items))).
    rewrite splitOn_app by done. f_equal. by apply IH.
Qed.

Lemma trimLeft_plain (s : string) : allChars plainChar s → trimLeft s = s.
Proof. destruct s as [|c s]; simpl; [done |]. by intros [(_ & _ & ->) _]. Qed.

Lemma trimRight_plain (s : string) : allChars plainChar s → trimRight s = s.
Proof.
  induction s as [|c s IH]; simpl; [done |]. intros [(_ & _ & Hc) Hs].
  rewrite IH by done. rewrite Hc. by destruct s.
Qed.

Lemma trim_plain (s : string) : allChars plainChar s → trim s = s.
Proof.
  intros Hs. unfold trim. rewrite trimLeft_plain by done. by apply trimRight_plain.
Qed.

End Text.

Section Runs.

Local Open Scope nat_scope.

Lemma runSet_single (x : nat) : runSet (x, x) = {[ x ]}.
Proof.
  unfold runSet. simpl. rewrite Nat.sub_diag. simpl. apply union_empty_r_L.
Qed.

Lemma runSet_extend (first last : nat) :
  first ≤ last → runSet (first, S last) = runSet (first, last) ∪ {[ S last ]}.
Proof.
  intros Hle. unfold runSet. cbn [fst snd]. apply set_eq. intros x.
  rewrite elem_of_union, !elem_of_set_seq, elem_of_singleton. lia.
Qed.

Lemma parseItem_formatRun (r : nat * nat) :
  r.1 ≤ r.2 → parseItem (formatRun r) = Some (runSet r).
Proof.
  destruct r as [a b]. cbn [fst snd]. intros Hab.
  unfold parseItem, formatRun. cbn [fst snd].
  destruct (Nat.eqb_spec a b) as [-> | Hne].
  - rewrite splitOn_plain.
    2:{ eapply allChars_impl; [| apply decimal_plain]. by intros c (_ & ? & _). }
    rewrite trim_plain by apply decimal_plain.
    rewrite parseDecimal_decimal. simpl. by rewrite runSet_single.
  - change (decimal a ++ "-" ++ decimal b)%string
      with (decimal a ++ String "-" (decimal b))%string.
    rewrite splitOn_app.
    2:{ eapply allChars_impl; [| apply decimal_plain]. by intros c (_ & ? & _). }
    rewrite splitOn_plain.
    2:{ eapply allChars_impl; [| apply decimal_plain]. by intros c (_ & ? & _). }
    rewrite !trim_plain by apply decimal_plain.
    rewrite !parseDecimal_decimal. simpl.
    destruct (Nat.leb_spec a b); [done | lia].
Qed.

Lemma formatRun_no_comma (r : nat * nat) :
  allChars (λ c, c ≠ ","%char) (formatRun r).
Proof.
  unfold formatRun.
  assert (∀ n, allChars (λ c, c ≠ ","%char) (decimal n)) as Hdec.
  { intros n. eapply allChars_impl; [| apply decimal_plain]. by intros c (? & _). }
  destruct (r.1 =? r.2); [apply Hdec |].
  apply allChars_app; [apply Hdec |]. simpl. split; [done | apply Hdec].
Qed.

(** The runs cover exactly the ids they were built from, whatever their
    order; every run has its start at or below its end. *)
Lemma contiguousRuns_cover (first last : nat) (ids : list nat) :
  first ≤ last →
  Forall (λ r, r.1 ≤ r.2) (contiguousRuns first last ids) ∧
  ⋃ (runSet <$> contiguousRuns first last ids)
  = runSet (first, last) ∪ list_to_set ids.
Proof.
  revert first last. induction ids as [|x ids IH]; intros first last Hle;
    cbn [contiguousRuns].
  - split; [by repeat constructor |]. set_solver.
  - destruct (Nat.eqb_spec x (S last)) as [-> | Hne].
    + destruct (IH first (S last)) as [Hall Hcover]; [lia |].
      split; [done |]. rewrite Hcover, runSet_extend by done.
      rewrite list_to_set_cons. by rewrite (assoc_L (∪)).
    + destruct (IH x x) as [Hall Hcover]; [lia |].
      split; [by constructor |].
      rewrite fmap_cons, union_list_cons, Hcover, runSet_single.
      by rewrite list_to_set_cons.
Qed.

Lemma runs_cover (ids : list nat) :
  Forall (λ r, r.1 ≤ r.2) (runs ids) ∧ ⋃ (runSet <$> runs ids) = list_to_set ids.
Proof.
  destruct ids as [|x ids]; cbn [runs]; [by split |].
  destruct (contiguousRuns_cover x x ids) as [Hall Hcover]; [lia |].
  split; [done |]. rewrite Hcover, runSet_single. set_solver.
Qed.

Lemma contiguousRuns_head (first last : nat) (ids : list nat) :
  ∃ r rest, contiguousRuns first last ids = r :: rest ∧ r.1 = first.
Proof.
  revert last. induction ids as [|x ids IH]; intros last; simpl; [by eauto |].
  destruct (x =? S last); [apply IH | by eauto].
Qed.

(** On strictly ascending ids the runs are canonical. *)
Lemma contiguousRuns_canonical (first last : nat) (ids : list nat) :
  first ≤ last → StronglySorted lt (last :: ids) →
  canonicalRuns (contiguousRuns first last ids).
Proof.
  revert first last. induction ids as [|x ids IH]; intros first last Hle Hsorted; simpl.
  - done.
  - apply StronglySorted_inv in Hsorted as [Hrest Hlast].
    apply Forall_cons in Hlast as [Hx _].
    destruct (Nat.eqb_spec x (S last)) as [-> | Hne].
    + apply IH; [lia | done].
    + split; [done |]. split; [| apply IH; [lia | done]].
      destruct (contiguousRuns_head x x ids) as (r & rest & -> & Hr).
      simpl. lia.
Qed.

Lemma runs_canonical (ids : list nat) :
  StronglySorted lt ids → canonicalRuns (runs ids).
Proof.
  destruct ids as [|x ids]; simpl; [done |]. by apply contiguousRuns_canonical.
Qed.

End Runs.

Section RoundTrip.

Local Open Scope nat_scope.

Lemma StronglySorted_le_lt (l : list nat) :
  StronglySorted Nat.le l → NoDup l → StronglySorted lt l.
Proof.
  induction 1 as [|x l Hs IH Hx]; intros Hnd; constructor.
  - apply IH. by apply NoDup_cons in Hnd as [_ ?].
  - apply NoDup_cons in Hnd as [Hnotin _].
    apply Forall_forall. intros y Hy.
    eapply Forall_forall in Hx; [| exact Hy].
    assert (x ≠ y) by by intros ->. unfold Nat.le in Hx. lia.
Qed.

Lemma sorted_elements (ids : gset nat) :
  let l := merge_sort Nat.le (elements ids) in
  StronglySorted lt l ∧ list_to_set l = ids ∧ (ids ≠ ∅ → l ≠ []).
Proof.
  intros l. assert (l ≡ₚ elements ids) as Hperm by apply merge_sort_Permutation.
  split; [| split].
  - apply StronglySorted_le_lt.
    + apply (StronglySorted_merge_sort Nat.le).
    + rewrite Hperm. apply NoDup_elements.
  - apply set_eq. intros x. by rewrite elem_of_list_to_set, Hperm, elem_of_elements.
  - intros Hne Hnil. rewrite Hnil in Hperm. symmetry in Hperm.
    apply Permutation_nil_r in Hperm. by apply elements_empty_inv, leibniz_equiv in Hperm.
Qed.

Lemma runs_nonempty (ids : list nat) : ids ≠ [] → runs ids ≠ [].
Proof.
  destruct ids as [|x ids]; [done |]. intros _. simpl.
  by destruct (contiguousRuns_head x x ids) as (r & rest & -> & _).
Qed.

Lemma mapM_parseItem_formatRun (rs : list (nat * nat)) :
  Forall (λ r, r.1 ≤ r.2) rs →
  mapM parseItem (formatRun <$> rs) = Some (runSet <$> rs).
Proof.
  induction 1 as [|r rs Hr Hrs IH]; [done |].
  rewrite !fmap_cons. cbn [mapM]. rewrite parseItem_formatRun by done.
  simpl. rewrite IH. done.
Qed.

Lemma Parse_Format (ids : gset nat) : ids ≠ ∅ → Parse (Format ids) = Ok ids.
Proof.
  intros Hne. unfold Parse, Format.
  destruct (sorted_elements ids) as (Hsorted & Hset & Hnil).
  destruct (runs_cover (merge_sort Nat.le (elements ids))) as [Hall Hcover].
  rewrite splitOn_concat.
  - rewrite mapM_parseItem_formatRun by done. by rewrite Hcover, Hset.
  - intros Hmap. apply fmap_nil_inv in Hmap. by apply runs_nonempty in Hmap; [| auto].
  - apply Forall_fmap, Forall_forall. intros r _. apply formatRun_no_comma.
Qed.

Lemma Format_canonical (ids : gset nat) : canonicalForm (Format ids) ids.
Proof.
  destruct (sorted_elements ids) as (Hsorted & Hset & _).
  exists (runs (merge_sort Nat.le (elements ids))). split; [| split].
  - by apply runs_canonical.
  - destruct (runs_cover (merge_sort Nat.le (elements ids))) as [_ Hcover].
    by rewrite Hcover.
  - done.
Qed.

Lemma splitOn_nonempty (sep : ascii) (s : string) : splitOn sep s ≠ [].
Proof.
  induction s as [|c s IH]; simpl; [done |].
  destruct (Ascii.eqb c sep); [done |]. by destruct (splitOn sep s).
Qed.

Lemma parseItem_nonempty (item : string) (ids : gset nat) :
  parseItem item = Some ids → ids ≠ ∅.
Proof.
  unfold parseItem.
  destruct (splitOn "-" item) as [|a [|b [|? ?]]]; [done | | | done].
  - destruct (parseDecimal (trim a)) as [n|]; [| done]. simpl.
    intros [= <-]. apply non_empty_singleton_L.
  - destruct (parseDecimal (trim a)) as [lo|]; [| done]. simpl.
    destruct (parseDecimal (trim b)) as [hi|]; [| done]. simpl.
    destruct (lo <=? hi); [| done]. intros [= <-] Hempty.
    apply empty_union_L in Hempty as [Hsingle _].
    by apply (non_empty_singleton_L (C := gset nat) lo).
Qed.

Lemma Parse_nonempty (text : string) (ids : gset nat) : Parse text = Ok ids → ids ≠ ∅.
Proof.
  unfold Parse. pose proof (splitOn_nonempty "," text) as Hsplit.
  destruct (splitOn "," text) as [|item items]; [done |]. cbn [mapM].
  destruct (parseItem item) as [X|] eqn:Hitem; [| done]. simpl.
  destruct (mapM parseItem items) as [sets|]; [| done]. simpl.
  intros [= <-] Hempty. apply empty_union_L in Hempty as [HX _].
  by apply parseItem_nonempty in Hitem.
Qed.

End RoundTrip.

Section Canonical.

Local Open Scope nat_scope.

Lemma elem_of_runSet (r : nat * nat) (x : nat) :
  r.1 ≤ r.2 → x ∈ runSet r ↔ r.1 ≤ x ≤ r.2.
Proof. intros Hr. unfold runSet. rewrite elem_of_set_seq. lia. Qed.

Lemma elem_of_runs (rs : list (nat * nat)) (x : nat) :
  x ∈ ⋃ (runSet <$> rs) ↔ ∃ r, r ∈ rs ∧ x ∈ runSet r.
Proof.
  rewrite elem_of_union_list. setoid_rewrite list_elem_of_fmap. split.
  - intros (X & (r & -> & Hr) & Hx). eauto.
  - intros (r & Hr & Hx). eauto.
Qed.

(** In canonical runs every id of a later run lies beyond the end of the
    first run, with a gap. *)
Lemma canonicalRuns_beyond (r : nat * nat) (rest : list (nat * nat)) (x : nat) :
  canonicalRuns (r :: rest) → x ∈ ⋃ (runSet <$> rest) → r.2 + 1 < x.
Proof.
  revert r. induction rest as [|next rest IH]; intros r Hcan Hx.
  - rewrite elem_of_runs in Hx. destruct Hx as (? & Hin & _). by apply elem_of_nil in Hin.
  - destruct Hcan as (Hr & Hgap & Hnext).
    rewrite fmap_cons, union_list_cons, elem_of_union in Hx.
    destruct Hx as [Hx | Hx].
    + destruct Hnext as (Hle & _). apply elem_of_runSet in Hx; [lia | done].
    + pose proof (IH next Hnext Hx). destruct Hnext as (Hle & _). lia.
Qed.

Lemma canonicalRuns_unique (rs rs' : list (nat * nat)) :
  canonicalRuns rs → canonicalRuns rs' →
  ⋃ (runSet <$> rs) = ⋃ (runSet <$> rs') → rs = rs'.
Proof.
  revert rs'. induction rs as [|r rest IH]; intros [|r' rest'] Hcan Hcan' Heq.
  - done.
  - exfalso. destruct Hcan' as (Hr' & _).
    assert (r'.1 ∈ ⋃ (runSet <$> r' :: rest')) as Hin.
    { rewrite fmap_cons, union_list_cons. apply elem_of_union_l, elem_of_runSet; lia. }
    rewrite <- Heq in Hin. apply elem_of_runs in Hin as (? & Hnil & _).
    by apply elem_of_nil in Hnil.
  - exfalso. destruct Hcan as (Hr & _).
    assert (r.1 ∈ ⋃ (runSet <$> r :: rest)) as Hin.
    { rewrite fmap_cons, union_list_cons. apply elem_of_union_l, elem_of_runSet; lia. }
    rewrite Heq in Hin. apply elem_of_runs in Hin as (? & Hnil & _).
    by apply elem_of_nil in Hnil.
  - pose proof (canonicalRuns_beyond r rest) as Hfar.
    pose proof (canonicalRuns_beyond r' rest') as Hfar'.
    specialize (λ x, Hfar x Hcan). specialize (λ x, Hfar' x Hcan').
    destruct Hcan as (Hr & _ & Hrest). destruct Hcan' as (Hr' & _ & Hrest').
    rewrite !fmap_cons, !union_list_cons in Heq.
    assert (∀ x, (r.1 ≤ x ≤ r.2 ∨ x ∈ ⋃ (runSet <$> rest)) ↔
                 (r'.1 ≤ x ≤ r'.2 ∨ x ∈ ⋃ (runSet <$> rest'))) as Hsame.
    { intros x. rewrite <- !elem_of_runSet by done. rewrite <- !elem_of_union.
      by rewrite Heq. }
    assert (r.1 = r'.1) as Hfst.
    { destruct (proj1 (Hsame r.1)) as [? | ?%Hfar']; [left; lia | |];
      destruct (proj2 (Hsame r'.1)) as [? | ?%Hfar]; try (right; lia); lia. }
    assert (r.2 = r'.2) as Hsnd.
    { destruct (decide (r.2 < r'.2)) as [Hlt |].
      - destruct (proj2 (Hsame (r.2 + 1))) as [? | ?%Hfar]; [left; lia | lia | lia].
      - destruct (decide (r'.2 < r.2)) as [Hlt |]; [| lia].
        destruct (proj1 (Hsame (r'.2 + 1))) as [? | ?%Hfar']; [left; lia | lia | lia]. }
    assert (r = r') as <- by (destruct r, r'; simpl in *; congruence).
    f_equal. apply IH; [done.. |]. apply set_eq. intros x. split; intros Hx.
    + destruct (proj1 (Hsame x)) as [? | ?]; [by right | | done].
      apply Hfar in Hx. lia.
    + destruct (proj2 (Hsame x)) as [? | ?]; [by right | | done].
      apply Hfar' in Hx. lia.
Qed.

(** The canonical compact range form of a set is unique. *)
Lemma canonicalForm_unique (text text' : string) (ids : gset nat) :
  canonicalForm text ids → canonicalForm text' ids → text = text'.
Proof.
  intros (rs & Hcan & Hcover & ->) (rs' & Hcan' & Hcover' & ->).
  by rewrite (canonicalRuns_unique rs rs') by congruence.
Qed.

End Canonical.

(** C4: [Parse] inverts [Format] on every non-empty set of ids; and for
    every text that [Parse] accepts, formatting the parsed set gives the
    canonical compact range form of that set (ascending, maximal
    contiguous runs, joined by commas), however the text was spaced or
    ordered; that form is the only canonical one of the set, and it parses
    back to the same set. *)
Theorem Format_Parse_roundtrip (ids : gset nat) (text : string) (parsed : gset nat) :
  ids ≠ ∅ → Parse text = Ok parsed →
  Parse (Format ids) = Ok ids ∧
  canonicalForm (Format parsed) parsed ∧
  (∀ other, canonicalForm other parsed → other = Format parsed) ∧
  Parse (Format parsed) = Ok parsed.
Proof.
  intros Hne Hparsed. split; [by apply Parse_Format |].
  split; [apply Format_canonical |]. split.
  - intros other Hother.
    apply (canonicalForm_unique _ _ parsed Hother), Format_canonical.
  - apply Parse_Format. by eapply Parse_nonempty.
Qed.

Lemma Format_Parse_roundtrip_witness :
  Parse (Format twoRuns) = Ok twoRuns ∧
  Parse " 8-11 , 0 - 3" = Ok twoRuns ∧
  Format twoRuns = "0-3,8-11".
Proof.
  assert (Parse " 8-11 , 0 - 3" = Ok twoRuns) as Hparsed by by vm_compute.
  split; [| split; [exact Hparsed | by vm_compute]].
  refine (proj1 (Format_Parse_roundtrip twoRuns " 8-11 , 0 - 3" twoRuns _ Hparsed)).
  intros Hempty. assert (0 ∈ twoRuns) as Hin by (unfold twoRuns; set_solver).
  rewrite Hempty in Hin. by apply not_elem_of_empty in Hin.
Defined.

(** ** The scenarios of the specification *)

Lemma BuildTopology_valid (raw : list RawCPU) (t : Topology) :
  BuildTopology raw = Ok t → validTopology t.
Proof.
  unfold BuildTopology. destruct (list_find _ raw) as [[? ?]|]; [done |].
  destruct (decide (validTopology (omap resolve raw))); [| done].
  by intros [= <-].
Qed.

Example scenario_split_four :
  match Partition (twoNodes 8) 4 true with
  | Ok p => Format (reserved p) = "0-1,8-9" ∧ Format (isolated p) = "2-7,10-15"
            ∧ size (isolated p) = 12%nat
  | Fail _ => False
  end.
Proof. by vm_compute. Qed.

Example scenario_five_is_not_whole_groups :
  Partition (twoNodes 8) 5 false = Fail (InvalidRequestError 5 (Some 4%Z) (Some 6%Z)).
Proof. by vm_compute. Qed.

Example scenario_every_cpu_reserved :
  Partition (twoNodes 8) 16 false = Fail (InvalidRequestError 16 (Some 14%Z) None).
Proof. by vm_compute. Qed.

Example scenario_loose_text :
  match Parse " 8-11 , 0 - 3,5" with
  | Ok ids => Format ids = "0-3,5,8-11"
  | Fail _ => False
  end.
Proof. by vm_compute. Qed.

Example scenario_remainder_to_lowest_node :
  match Partition (twoNodesSingleThread 4) 3 true with
  | Ok p => Format (reserved p) = "0-1,4"
            ∧ reservedOnNode (twoNodesSingleThread 4) p 0 = 2%nat
            ∧ reservedOnNode (twoNodesSingleThread 4) p 1 = 1%nat
  | Fail _ => False
  end.
Proof. by vm_compute. Qed.

(** * Further properties of the command layer *)

(** ** Flag processing *)

Section FlagProcessing.

Variable unicodeFold : Z → Z.

(** [getDataFromFlags] returns a nil error exactly when every flag it looks
    up is defined, the count and the two booleans parse, the policy and the
    power mode are valid, and the policy does not exclude the split; the
    arguments are then built from the parsed values. *)
Lemma getDataFromFlags_success (cmd : FlagSet) (args : profileCreatorArgs) :
  getDataFromFlags unicodeFold cmd = Returned (args, None) ↔
  ∃ dir mcp cnt splitText prof pol pow rtText n split rt,
    cmd !! "must-gather-dir-path" = Some dir ∧
    cmd !! "mcp-name" = Some mcp ∧
    cmd !! "reserved-cpu-count" = Some cnt ∧
    strconv.Atoi cnt = (n, None) ∧
    cmd !! "split-reserved-cpus-across-numa" = Some splitText ∧
    strconv.ParseBool splitText = (split, None) ∧
    cmd !! "profile-name" = Some prof ∧
    cmd !! "topology-manager-policy" = Some pol ∧
    validateFlag unicodeFold pol validTMPolicyValues = None ∧
    ¬ (pol = kubeletconfig.SingleNumaNodeTopologyManager ∧ split = true) ∧
    cmd !! "power-consumption-mode" = Some pow ∧
    validateFlag unicodeFold pow validPowerConsumptionModes = None ∧
    cmd !! "rt-kernel" = Some rtText ∧
    strconv.ParseBool rtText = (rt, None) ∧
    args = argsOf dir mcp prof pol n split rt.
Proof.
  unfold getDataFromFlags, Flag, orFail. split.
  - destruct (cmd !! "must-gather-dir-path") as [dir|]; [| done].
    destruct (cmd !! "mcp-name") as [mcp|]; [| done].
    destruct (cmd !! "reserved-cpu-count") as [cnt|]; [| done].
    cbn [mbind outcome_bind].
    destruct (strconv.Atoi cnt) as [n [?|]] eqn:Hcnt; [done |].
    destruct (cmd !! "split-reserved-cpus-across-numa") as [splitText|]; [| done].
    cbn [mbind outcome_bind].
    destruct (strconv.ParseBool splitText) as [split [?|]] eqn:Hsplit; [done |].
    destruct (cmd !! "profile-name") as [prof|]; [| done].
    destruct (cmd !! "topology-manager-policy") as [pol|]; [| done].
    cbn [mbind outcome_bind].
    destruct (validateFlag unicodeFold pol validTMPolicyValues) eqn:Hpol; [done |].
    destruct (bool_decide (pol = kubeletconfig.SingleNumaNodeTopologyManager)
              && split) eqn:Hexcl; [done |].
    destruct (cmd !! "power-consumption-mode") as [pow|]; [| done].
    cbn [mbind outcome_bind].
    destruct (validateFlag unicodeFold pow validPowerConsumptionModes) eqn:Hpow;
      [done |].
    destruct (cmd !! "rt-kernel") as [rtText|]; [| done].
    cbn [mbind outcome_bind].
    destruct (strconv.ParseBool rtText) as [rt [?|]] eqn:Hrt; [done |].
    intros [= <-]. exists dir, mcp, cnt, splitText, prof, pol, pow, rtText, n, split, rt.
    split_and!; try done.
    intros [Hsingle ->]. apply andb_false_iff in Hexcl as [Hd | ?]; [| done].
    by apply bool_decide_eq_false in Hd.
  - intros (dir & mcp & cnt & splitText & prof & pol & pow & rtText & n & split & rt
            & Hdir & Hmcp & Hcnt & Hn & Hsplit & Hs & Hprof & Hpol & Hvalid & Hexcl
            & Hpow & Hmode & Hrt & Hr & ->).
    rewrite Hdir, Hmcp, Hcnt. cbn [mbind outcome_bind]. rewrite Hn, Hsplit.
    cbn [mbind outcome_bind]. rewrite Hs, Hprof, Hpol. cbn [mbind outcome_bind].
    rewrite Hvalid.
    destruct (bool_decide (pol = kubeletconfig.SingleNumaNodeTopologyManager)
              && split) eqn:E.
    { apply andb_true_iff in E as [Hd ->]. apply bool_decide_eq_true in Hd.
      by destruct Hexcl. }
    rewrite Hpow. cbn [mbind outcome_bind]. rewrite Hmode, Hrt.
    cbn [mbind outcome_bind]. by rewrite Hr.
Qed.

Lemma Atoi_in_range (text : string) (n : Z) :
  strconv.Atoi text = (n, None) → (strconv.minInt ≤ n ≤ strconv.maxInt)%Z.
Proof.
  unfold strconv.Atoi.
  destruct (match text with
            | String "-"%char r => (true, r)
            | String "+"%char r => (false, r)
            | _ => (false, text)
            end) as [neg body].
  destruct body as [|c body]; [done |].
  destruct (strconv.digits 0 (String c body)) as [v|]; [| done]. cbv zeta.
  destruct (Z.ltb_spec strconv.maxInt (if neg then (- v)%Z else v)); [done |].
  destruct (Z.ltb_spec (if neg then (- v)%Z else v) strconv.minInt); [done |].
  intros [= <-]. lia.
Qed.

(** When the flags that [init] registers are defined, [getDataFromFlags]
    returns: no flag lookup dereferences nil. *)
Lemma getDataFromFlags_registered (cmd : FlagSet) :
  registered cmd → ∃ args err, getDataFromFlags unicodeFold cmd = Returned (args, err).
Proof.
  intros Hreg.
  destruct (registered_lookup cmd "must-gather-dir-path" Hreg) as [? Hdir];
    [by vm_compute |].
  destruct (registered_lookup cmd "mcp-name" Hreg) as [? Hmcp]; [by vm_compute |].
  destruct (registered_lookup cmd "reserved-cpu-count" Hreg) as [cnt Hcnt];
    [by vm_compute |].
  destruct (registered_lookup cmd "split-reserved-cpus-across-numa" Hreg)
    as [splitText Hsplit]; [by vm_compute |].
  destruct (registered_lookup cmd "profile-name" Hreg) as [? Hprof]; [by vm_compute |].
  destruct (registered_lookup cmd "topology-manager-policy" Hreg) as [pol Hpol];
    [by vm_compute |].
  destruct (registered_lookup cmd "power-consumption-mode" Hreg) as [pow Hpow];
    [by vm_compute |].
  destruct (registered_lookup cmd "rt-kernel" Hreg) as [rtText Hrt]; [by vm_compute |].
  unfold getDataFromFlags, Flag, orFail.
  rewrite Hdir, Hmcp, Hcnt. cbn [mbind outcome_bind].
  destruct (strconv.Atoi cnt) as [n [?|]]; [by eauto |].
  rewrite Hsplit. cbn [mbind outcome_bind].
  destruct (strconv.ParseBool splitText) as [split [?|]]; [by eauto |].
  rewrite Hprof, Hpol. cbn [mbind outcome_bind].
  destruct (validateFlag unicodeFold pol validTMPolicyValues); [by eauto |].
  destruct (bool_decide _ && split); [by eauto |].
  rewrite Hpow. cbn [mbind outcome_bind].
  destruct (validateFlag unicodeFold pow validPowerConsumptionModes); [by eauto |].
  rewrite Hrt. cbn [mbind outcome_bind].
  destruct (strconv.ParseBool rtText) as [rt [?|]]; by eauto.
Qed.

(** X1: [init] registers every flag that [getDataFromFlags] looks up, with
    defaults that pass its checks: whatever flags the command line sets on
    top of the defaults, [getDataFromFlags] returns without a nil
    dereference, and with nothing set it returns the default arguments (a
    count of 0 among them) and no error. *)
Theorem getDataFromFlags_on_init (given : FlagSet) :
  (∃ args err, getDataFromFlags unicodeFold (given ∪ init) = Returned (args, err)) ∧
  getDataFromFlags unicodeFold init
  = Returned (argsOf "must-gather" "worker-cnf" "performance" "restricted" 0 false true,
              None).
Proof.
  split; [| done]. apply getDataFromFlags_registered.
  unfold registered. rewrite dom_union_L. apply union_subseteq_r.
Qed.

(** X2: whenever [getDataFromFlags] returns an error, the arguments it
    returns with it are the zero value. *)
Theorem getDataFromFlags_error_gives_zero_args
    (cmd : FlagSet) (args : profileCreatorArgs) (e : error) :
  getDataFromFlags unicodeFold cmd = Returned (args, Some e) → args = zeroArgs.
Proof.
  unfold getDataFromFlags, Flag, orFail. cbn [mbind outcome_bind].
  repeat (case_match; cbn [mbind outcome_bind]; try done);
    by intros [= <- <-].
Qed.

(** X3: arguments returned without an error are validated: the policy is one
    of the valid values up to case folding, the policy does not exclude the
    requested split, the count is an [int]; and the power consumption mode
    and user-level networking are never stored in them. *)
Theorem getDataFromFlags_validated (cmd : FlagSet) (args : profileCreatorArgs) :
  getDataFromFlags unicodeFold cmd = Returned (args, None) →
  validateFlag unicodeFold (tmPolicy args) validTMPolicyValues = None ∧
  ¬ (tmPolicy args = kubeletconfig.SingleNumaNodeTopologyManager
     ∧ splitReservedCPUsAcrossNUMA args = true) ∧
  (strconv.minInt ≤ reservedCPUCount args ≤ strconv.maxInt)%Z ∧
  powerConsumptionMode args = "" ∧ userLevelNetworking args = false.
Proof.
  intros (dir & mcp & cnt & splitText & prof & pol & pow & rtText & n & split & rt
          & _ & _ & _ & Hn & _ & _ & _ & _ & Hvalid & Hexcl & _ & _ & _ & _ & ->)
         %getDataFromFlags_success.
  pose proof (Atoi_in_range _ _ Hn). simpl. split_and!; try done; lia.
Qed.


(** X5: the power consumption mode only gates, and user-level networking is
    never read: two flag sets that differ at most in these two flags, both
    with a valid power consumption mode, give the same outcome of
    [getDataFromFlags] and of the whole [RunE]. *)
Theorem getDataFromFlags_mode_only_gates (cmd1 cmd2 : FlagSet) (mode1 mode2 : string) :
  delete "user-level-networking" (delete "power-consumption-mode" cmd1)
  = delete "user-level-networking" (delete "power-consumption-mode" cmd2) →
  cmd1 !! "power-consumption-mode" = Some mode1 →
  cmd2 !! "power-consumption-mode" = Some mode2 →
  validateFlag unicodeFold mode1 validPowerConsumptionModes = None →
  validateFlag unicodeFold mode2 validPowerConsumptionModes = None →
  getDataFromFlags unicodeFold cmd1 = getDataFromFlags unicodeFold cmd2 ∧
  ∀ (MCP Node Handle LabelSelector : Type)
    (pc : Collaborators MCP Node Handle LabelSelector),
    RunE pc unicodeFold cmd1 = RunE pc unicodeFold cmd2.
Proof.
  intros Heq Hm1 Hm2 Hv1 Hv2.
  assert (getDataFromFlags unicodeFold cmd1 = getDataFromFlags unicodeFold cmd2)
    as Hflags; [| split; [done | intros; unfold RunE; by rewrite Hflags]].
  assert (∀ name, name ≠ "user-level-networking" → name ≠ "power-consumption-mode" →
                  cmd1 !! name = cmd2 !! name) as Hsame.
  { intros name Hn Hp.
    transitivity (delete "user-level-networking"
                    (delete "power-consumption-mode" cmd1) !! name).
    - by rewrite !lookup_delete_ne by done.
    - rewrite Heq. by rewrite !lookup_delete_ne by done. }
  unfold getDataFromFlags, Flag, orFail.
  rewrite (Hsame "must-gather-dir-path"), (Hsame "mcp-name"),
    (Hsame "reserved-cpu-count"), (Hsame "split-reserved-cpus-across-numa"),
    (Hsame "profile-name"), (Hsame "topology-manager-policy"), (Hsame "rt-kernel")
    by done.
  rewrite Hm1, Hm2. cbn [mbind outcome_bind]. by rewrite Hv1, Hv2.
Qed.

(** X15: the text flags are stored byte for byte: arguments returned without
    an error hold the directory, the pool name, the profile name and the
    policy exactly as the flags give them; a policy accepted in another case
    is not replaced by the valid value it matched. *)
Theorem getDataFromFlags_stores_text (cmd : FlagSet) (args : profileCreatorArgs) :
  getDataFromFlags unicodeFold cmd = Returned (args, None) →
  cmd !! "must-gather-dir-path" = Some (mustGatherDirPath args) ∧
  cmd !! "mcp-name" = Some (mcpName args) ∧
  cmd !! "profile-name" = Some (profileName args) ∧
  cmd !! "topology-manager-policy" = Some (tmPolicy args).
Proof.
  by intros (dir & mcp & cnt & splitText & prof & pol & pow & rtText & n & split & rt
             & Hdir & Hmcp & _ & _ & _ & _ & Hprof & Hpol & _ & _ & _ & _ & _ & _ & ->)
            %getDataFromFlags_success.
Qed.

(** X16: the exclusivity error is returned only for the exact spelling of
    the single-NUMA-node policy together with a split flag that parses to
    true. *)
Theorem getDataFromFlags_exclusive_only_exact
    (cmd : FlagSet) (args : profileCreatorArgs) (operands : list operand) :
  getDataFromFlags unicodeFold cmd
  = Returned (args,
              Some (Errorf "not appropriate to split reserved CPUs in case of topology-manager-policy: %v"
                      operands)) →
  cmd !! "topology-manager-policy" = Some kubeletconfig.SingleNumaNodeTopologyManager ∧
  ∃ splitText, cmd !! "split-reserved-cpus-across-numa" = Some splitText ∧
               strconv.ParseBool splitText = (true, None).
Proof.
  unfold getDataFromFlags, Flag, orFail.
  destruct (cmd !! "must-gather-dir-path") as [dir|]; [| done].
  destruct (cmd !! "mcp-name") as [mcp|]; [| done].
  destruct (cmd !! "reserved-cpu-count") as [cnt|]; [| done].
  cbn [mbind outcome_bind].
  destruct (strconv.Atoi cnt) as [n [?|]]; [done |].
  destruct (cmd !! "split-reserved-cpus-across-numa") as [splitText|]; [| done].
  cbn [mbind outcome_bind].
  destruct (strconv.ParseBool splitText) as [split [?|]] eqn:Hsplit; [done |].
  destruct (cmd !! "profile-name") as [prof|]; [| done].
  destruct (cmd !! "topology-manager-policy") as [pol|]; [| done].
  cbn [mbind outcome_bind].
  destruct (validateFlag unicodeFold pol validTMPolicyValues); [done |].
  destruct (bool_decide (pol = kubeletconfig.SingleNumaNodeTopologyManager)
            && split) eqn:Hexcl.
  - intros _. apply andb_true_iff in Hexcl as [Hpol ->].
    apply bool_decide_eq_true in Hpol as ->. eauto.
  - destruct (cmd !! "power-consumption-mode") as [pow|]; [| done].
    cbn [mbind outcome_bind].
    destruct (validateFlag unicodeFold pow validPowerConsumptionModes); [done |].
    destruct (cmd !! "rt-kernel") as [rtText|]; [| done].
    cbn [mbind outcome_bind].
    by destruct (strconv.ParseBool rtText) as [rt [?|]].
Qed.

End FlagProcessing.

(** ** Validation of enumerated flags *)

Section Validation.

Variable unicodeFold : Z → Z.

Lemma foldMatch_refl (r : Z) : strings.foldMatch unicodeFold r r = true.
Proof. unfold strings.foldMatch. by rewrite Z.eqb_refl. Qed.

Lemma foldLoop_refl (s : list Z) (fuel : nat) :
  (length s ≤ fuel)%nat → strings.foldLoop unicodeFold fuel s s = true.
Proof.
  revert s. induction fuel as [|fuel IH]; intros s Hlen.
  - destruct s; [done | simpl in Hlen; lia].
  - destruct s as [|b s]; [done |]. cbn [strings.foldLoop].
    pose proof (DecodeRune_width b s) as Hw.
    destruct (utf8.DecodeRune (b :: s)) as [r w]. rewrite foldMatch_refl.
    simpl in Hw, Hlen. apply IH. rewrite length_drop. simpl. lia.
Qed.

(** [strings.EqualFold] holds of every string and itself, valid UTF-8 or
    not. *)
Lemma EqualFold_refl (s : string) : strings.EqualFold unicodeFold s s = true.
Proof. unfold strings.EqualFold. by apply foldLoop_refl. Qed.

(** X6: every value of the list of valid values passes [validateFlag]
    against that list, whatever its bytes. *)
Theorem validateFlag_accepts_listed (value : string) (validValues : list string) :
  value ∈ validValues → validateFlag unicodeFold value validValues = None.
Proof.
  intros Hin. apply validateFlag_None, isStringInSlice_spec.
  exists value. split; [done | apply EqualFold_refl].
Qed.

(** X7: a value accepted against a list of valid values is accepted against
    every list that contains those values, in any order; against the empty
    list every value is rejected, and the error carries the value and the
    list. *)
Theorem validateFlag_monotone (value : string) (validValues more : list string) :
  validValues ⊆ more →
  (validateFlag unicodeFold value validValues = None →
   validateFlag unicodeFold value more = None) ∧
  validateFlag unicodeFold value []
  = Some (Errorf "Value '%s' is invalid. Valid values come from the set %v"
            [OpString value; OpStrings []]).
Proof.
  intros Hsub. split; [| done].
  rewrite !validateFlag_None, !isStringInSlice_spec.
  intros (c & Hc & Hfold). exists c. split; [by apply Hsub | done].
Qed.

End Validation.

(** ** Decimal counts *)

Section Decimal.

Local Open Scope Z_scope.

Lemma digits_of_uint_acc (d : Decimal.uint) (acc : positive) :
  strconv.digits (Z.pos acc) (NilEmpty.string_of_uint d)
  = Some (Z.pos (Pos.of_uint_acc d acc)).
Proof.
  revert acc. induction d as [| d IH | d IH | d IH | d IH | d IH | d IH
                              | d IH | d IH | d IH | d IH]; intros acc;
    [done | ..];
    cbn [NilEmpty.string_of_uint strconv.digits Pos.of_uint_acc];
    match goal with
    | |- context [strconv.isDigit ?c] =>
        change (strconv.isDigit c) with true; cbv iota;
        let v := eval vm_compute in (strconv.digitValue c) in
        change (strconv.digitValue c) with v
    end;
    rewrite <- IH; f_equal; lia.
Qed.

Lemma digits_of_uint (d : Decimal.uint) :
  strconv.digits 0 (NilEmpty.string_of_uint d) = Some (Z.of_N (Pos.of_uint d)).
Proof.
  induction d as [| d IH | d IH | d IH | d IH | d IH | d IH
                  | d IH | d IH | d IH | d IH];
    [done | exact IH | ..];
    cbn [NilEmpty.string_of_uint strconv.digits Pos.of_uint];
    match goal with
    | |- context [strconv.isDigit ?c] =>
        change (strconv.isDigit c) with true; cbv iota;
        let v := eval vm_compute in (strconv.digitValue c) in
        change (strconv.digitValue c) with v
    end;
    apply (digits_of_uint_acc d).
Qed.

Lemma digits_of_positive (p : positive) :
  ∃ c rest, NilEmpty.string_of_uint (Pos.to_uint p) = String c rest ∧
            strconv.isDigit c = true ∧
            strconv.digits 0 (String c rest) = Some (Z.pos p).
Proof.
  pose proof (digits_of_uint (Pos.to_uint p)) as Hdigits.
  rewrite DecimalPos.Unsigned.of_to in Hdigits.
  pose proof (DecimalPos.Unsigned.to_uint_nonnil p) as Hnonnil.
  destruct (Pos.to_uint p); [done | ..]; eauto.
Qed.

Lemma Atoi_digits (c : ascii) (rest : string) (v : Z) :
  strconv.isDigit c = true →
  strconv.digits 0 (String c rest) = Some v →
  strconv.Atoi (String c rest)
  = if strconv.maxInt <? v
    then (strconv.maxInt, Some (NumError "Atoi" (String c rest) ErrRange))
    else if v <? strconv.minInt
         then (strconv.minInt, Some (NumError "Atoi" (String c rest) ErrRange))
         else (v, None).
Proof.
  intros Hc Hv. unfold strconv.Atoi.
  assert (match String c rest with
          | String "-"%char r => (true, r)
          | String "+"%char r => (false, r)
          | _ => (false, String c rest)
          end = (false, String c rest)) as ->.
  { by destruct c as [[] [] [] [] [] [] [] []]. }
  by rewrite Hv.
Qed.

(** [strconv.Atoi] reads back what [strconv.Itoa] writes. *)
Lemma Atoi_Itoa (n : Z) :
  strconv.minInt ≤ n ≤ strconv.maxInt → strconv.Atoi (strconv.Itoa n) = (n, None).
Proof.
  intros Hrange. unfold strconv.Itoa. destruct n as [|p|p]; [done | |].
  - cbn [Z.to_int NilZero.string_of_int]. unfold NilZero.string_of_uint.
    destruct (digits_of_positive p) as (c & rest & Htext & Hc & Hv).
    pose proof (DecimalPos.Unsigned.to_uint_nonnil p) as Hnonnil.
    replace (match Pos.to_uint p with
             | Decimal.Nil => "0"%string
             | _ => NilEmpty.string_of_uint (Pos.to_uint p)
             end) with (String c rest) by (by destruct (Pos.to_uint p)).
    rewrite (Atoi_digits c rest (Z.pos p)) by done.
    destruct (Z.ltb_spec strconv.maxInt (Z.pos p)); [lia |].
    destruct (Z.ltb_spec (Z.pos p) strconv.minInt); [| done].
    unfold strconv.minInt in *. lia.
  - cbn [Z.to_int NilZero.string_of_int]. unfold NilZero.string_of_uint.
    destruct (digits_of_positive p) as (c & rest & Htext & Hc & Hv).
    pose proof (DecimalPos.Unsigned.to_uint_nonnil p) as Hnonnil.
    replace (match Pos.to_uint p with
             | Decimal.Nil => "0"%string
             | _ => NilEmpty.string_of_uint (Pos.to_uint p)
             end) with (String c rest) by (by destruct (Pos.to_uint p)).
    unfold strconv.Atoi. rewrite Hv. cbv zeta iota beta.
    change (- Z.pos p) with (Z.neg p).
    destruct (Z.ltb_spec strconv.maxInt (Z.neg p)); [unfold strconv.maxInt in *; lia |].
    destruct (Z.ltb_spec (Z.neg p) strconv.minInt); [lia | done].
Qed.

End Decimal.

(** X8: a count given in decimal arrives unchanged in the arguments, zero
    and negative counts included: on a flag set that is processed without
    error, replacing reserved-cpu-count by the decimal text of any [int]
    changes the count of the returned arguments and nothing else. *)
Theorem getDataFromFlags_keeps_count
    (unicodeFold : Z → Z) (cmd : FlagSet) (args : profileCreatorArgs) (n : Z) :
  (strconv.minInt ≤ n ≤ strconv.maxInt)%Z →
  getDataFromFlags unicodeFold cmd = Returned (args, None) →
  getDataFromFlags unicodeFold (<["reserved-cpu-count" := strconv.Itoa n]> cmd)
  = Returned (argsOf (mustGatherDirPath args) (mcpName args) (profileName args)
                (tmPolicy args) n (splitReservedCPUsAcrossNUMA args) (rtKernel args),
              None).
Proof.
  intros Hrange
    (dir & mcp & cnt & splitText & prof & pol & pow & rtText & n0 & split & rt
     & Hdir & Hmcp & Hcnt & Hn & Hsplit & Hs & Hprof & Hpol & Hvalid & Hexcl
     & Hpow & Hmode & Hrt & Hr & ->)%getDataFromFlags_success.
  apply getDataFromFlags_success.
  exists dir, mcp, (strconv.Itoa n), splitText, prof, pol, pow, rtText, n, split, rt.
  rewrite lookup_insert_eq, !lookup_insert_ne by done.
  split_and!; try done. by apply Atoi_Itoa.
Qed.

(** ** Profile data *)

Section ProfileData.

Context {MCP Node Handle LabelSelector : Type}.
Variable pc : Collaborators MCP Node Handle LabelSelector.

Local Ltac nil_or_error :=
  let Hnot := fresh "Hnot" in
  intros [= <- <-]; split; intros Hnot; (done || by destruct Hnot).

(** [getProfileData] returns nil exactly when it returns an error. *)
Lemma getProfileData_nil_iff_error (args : profileCreatorArgs)
    (data : option (ProfileData LabelSelector)) (err : option error) :
  getProfileData pc args = Returned (data, err) → (data = None ↔ err ≠ None).
Proof.
  unfold getProfileData, orNil.
  destruct (GetMCP pc _ _) as [mcp [?|]]; [nil_or_error |].
  destruct (GetNodeList pc _) as [nodes [?|]]; [nil_or_error |].
  destruct (GetMCPList pc _) as [mcps [?|]]; [nil_or_error |].
  destruct (GetNodesForPool pc _ _ _) as [matched [?|]]; [nil_or_error |].
  destruct (EnsureNodesHaveTheSameHardware pc _ _); [nil_or_error |].
  destruct (first Node matched) as [node0|]; [| done]. cbn [mbind outcome_bind].
  destruct (GetName pc node0) as [nodeName|]; [| done]. cbn [mbind outcome_bind].
  destruct (NewGHWHandler pc _ node0) as [handle ?].
  destruct (GetReservedAndIsolatedCPUs pc handle _ _) as [[[r i] [?|]]|]; [| | done];
    cbn [mbind outcome_bind]; [nil_or_error |].
  destruct (SpecNodeSelector pc mcp); [| done]. cbn [mbind outcome_bind].
  nil_or_error.
Qed.

(** X9: [getProfileData] returns the profile data exactly when it returns
    no error: never both, never neither; and the data it returns carries
    the profile name, the policy and the real-time kernel choice of the
    arguments unchanged. *)
Theorem getProfileData_data_or_error (args : profileCreatorArgs)
    (data : option (ProfileData LabelSelector)) (err : option error) :
  getProfileData pc args = Returned (data, err) →
  (is_Some data ↔ err = None) ∧
  ∀ d, data = Some d →
       performanceProfileName LabelSelector d = profileName args ∧
       topologyPoilcy LabelSelector d = tmPolicy args ∧
       pdRtKernel LabelSelector d = rtKernel args.
Proof.
  intros Hrun. split.
  - apply getProfileData_nil_iff_error in Hrun as [Hnil Herr].
    destruct data as [d|], err as [e|].
    + by assert (Some d = None) by (by apply Herr).
    + split; [done | by eexists].
    + split; [by intros [? ?] | done].
    + by destruct Hnil.
  - revert Hrun. unfold getProfileData, orNil.
    destruct (GetMCP pc _ _) as [mcp [?|]]; [by intros [= <- <-] d [=] |].
    destruct (GetNodeList pc _) as [nodes [?|]]; [by intros [= <- <-] d [=] |].
    destruct (GetMCPList pc _) as [mcps [?|]]; [by intros [= <- <-] d [=] |].
    destruct (GetNodesForPool pc _ _ _) as [matched [?|]]; [by intros [= <- <-] d [=] |].
    destruct (EnsureNodesHaveTheSameHardware pc _ _); [by intros [= <- <-] d [=] |].
    destruct (first Node matched) as [node0|]; [| done]. cbn [mbind outcome_bind].
    destruct (GetName pc node0) as [nodeName|]; [| done]. cbn [mbind outcome_bind].
    destruct (NewGHWHandler pc _ node0) as [handle ?].
    destruct (GetReservedAndIsolatedCPUs pc handle _ _) as [[[r i] [?|]]|]; [| | done];
      cbn [mbind outcome_bind]; [by intros [= <- <-] d [=] |].
    destruct (SpecNodeSelector pc mcp); [| done]. cbn [mbind outcome_bind].
    by intros [= <- <-] d [= <-].
Qed.

(** X10: when no node matches the pool and the hardware comparison of the
    empty list passes, [getProfileData] panics on [matchedNodes[0]] instead
    of returning an error. *)
Theorem getProfileData_panics_without_nodes
    (args : profileCreatorArgs) (mcp : MCP) (nodes : list Node) (mcps : list MCP) :
  GetMCP pc (mustGatherDirPath args) (mcpName args) = (mcp, None) →
  GetNodeList pc (mustGatherDirPath args) = (nodes, None) →
  GetMCPList pc (mustGatherDirPath args) = (mcps, None) →
  GetNodesForPool pc mcp mcps nodes = ([], None) →
  EnsureNodesHaveTheSameHardware pc (mustGatherDirPath args) [] = None →
  getProfileData pc args = Panicked "index out of range [0] with length 0".
Proof.
  intros Hmcp Hnodes Hmcps Hpool Hsame. unfold getProfileData, orNil.
  by rewrite Hmcp, Hnodes, Hmcps, Hpool, Hsame.
Qed.

(** X11: when the matched nodes differ in hardware, [getProfileData] returns
    that error without touching any node's hardware: the outcome is the same
    for all collaborators that agree up to the comparison. *)
Theorem getProfileData_stops_at_differing_nodes
    (pc' : Collaborators MCP Node Handle LabelSelector)
    (args : profileCreatorArgs) (mcp : MCP) (nodes : list Node) (mcps : list MCP)
    (matched : list Node) (e : error) :
  sameUntilHardware pc pc' →
  GetMCP pc (mustGatherDirPath args) (mcpName args) = (mcp, None) →
  GetNodeList pc (mustGatherDirPath args) = (nodes, None) →
  GetMCPList pc (mustGatherDirPath args) = (mcps, None) →
  GetNodesForPool pc mcp mcps nodes = (matched, None) →
  EnsureNodesHaveTheSameHardware pc (mustGatherDirPath args) matched = Some e →
  getProfileData pc args
  = Returned (None, Some (Errorf "targeted nodes differ: %v" [OpError e])) ∧
  getProfileData pc' args = getProfileData pc args.
Proof.
  intros (H1 & H2 & H3 & H4 & H5) Hmcp Hnodes Hmcps Hpool Hdiffer.
  unfold getProfileData, orNil. rewrite <- H1, <- H2, <- H3, <- H4, <- H5.
  by rewrite Hmcp, Hnodes, Hmcps, Hpool, Hdiffer.
Qed.

(** X12: of the matched nodes only the first is inspected: two matchings
    that give the same error and the same first node, and on whose lists
    the hardware comparison gives the same verdict, lead to the same
    outcome. *)
Theorem getProfileData_first_node_is_representative
    (matching matching' : MCP → list MCP → list Node → list Node * option error)
    (args : profileCreatorArgs) :
  (∀ mcp mcps nodes,
     (matching mcp mcps nodes).2 = (matching' mcp mcps nodes).2 ∧
     head (matching mcp mcps nodes).1 = head (matching' mcp mcps nodes).1 ∧
     EnsureNodesHaveTheSameHardware pc (mustGatherDirPath args)
       (matching mcp mcps nodes).1
     = EnsureNodesHaveTheSameHardware pc (mustGatherDirPath args)
         (matching' mcp mcps nodes).1) →
  getProfileData (withNodesForPool matching pc) args
  = getProfileData (withNodesForPool matching' pc) args.
Proof.
  intros Hsame. unfold getProfileData, orNil, withNodesForPool. cbn.
  destruct (GetMCP pc _ _) as [mcp [?|]]; [done |].
  destruct (GetNodeList pc _) as [nodes [?|]]; [done |].
  destruct (GetMCPList pc _) as [mcps [?|]]; [done |].
  destruct (Hsame mcp mcps nodes) as (Herr & Hhead & Hverdict).
  destruct (matching mcp mcps nodes) as [matched err],
           (matching' mcp mcps nodes) as [matched' err'].
  simpl in Herr, Hhead, Hverdict. subst err'. destruct err; [done |].
  rewrite Hverdict.
  destruct (EnsureNodesHaveTheSameHardware pc _ matched'); [done |].
  by destruct matched, matched'; simplify_eq/=.
Qed.


End ProfileData.

(** ** From the flags to the printed profile *)

Section EndToEnd.

Context {MCP Node Handle : Type}.
Variable GroupVersionString : string.
Variable MarshallObject : PerformanceProfile → string * option error.
Variable pc : Collaborators MCP Node Handle (option LabelSelector).

Lemma getProfileData_success (args : profileCreatorArgs) (mcp : MCP)
    (nodes : list Node) (mcps : list MCP) (node0 : Node) (others : list Node)
    (nodeName : string) (handle : Handle) (handlerErr : option error)
    (reservedSet isolatedSet : string) (selector : option LabelSelector) :
  GetMCP pc (mustGatherDirPath args) (mcpName args) = (mcp, None) →
  GetNodeList pc (mustGatherDirPath args) = (nodes, None) →
  GetMCPList pc (mustGatherDirPath args) = (mcps, None) →
  GetNodesForPool pc mcp mcps nodes = (node0 :: others, None) →
  EnsureNodesHaveTheSameHardware pc (mustGatherDirPath args) (node0 :: others) = None →
  GetName pc node0 = Returned nodeName →
  NewGHWHandler pc (mustGatherDirPath args) node0 = (handle, handlerErr) →
  GetReservedAndIsolatedCPUs pc handle (reservedCPUCount args)
    (splitReservedCPUsAcrossNUMA args) = Returned (reservedSet, isolatedSet, None) →
  SpecNodeSelector pc mcp = Returned selector →
  getProfileData pc args
  = Returned (Some {| reservedCPUs := reservedSet;
                      isolatedCPUs := isolatedSet;
                      nodeSelector := selector;
                      performanceProfileName := profileName args;
                      topologyPoilcy := tmPolicy args;
                      pdRtKernel := rtKernel args |}, None).
Proof.
  intros Hmcp Hnodes Hmcps Hpool Hsame Hname Hhandle Hcpus Hsel.
  unfold getProfileData, orNil, first.
  rewrite Hmcp, Hnodes, Hmcps, Hpool, Hsame. cbn [mbind outcome_bind].
  rewrite Hname. cbn [mbind outcome_bind]. rewrite Hhandle, Hcpus.
  cbn [mbind outcome_bind]. by rewrite Hsel.
Qed.

(** X14: from the flags to the output.  When flag processing and every
    collaborator succeed, the run prints the marshalling of a profile whose
    reserved set is the first and whose isolated set is the second result of
    [GetReservedAndIsolatedCPUs], named and configured from the flags, with
    the match labels of the pool's node selector, and returns a nil error
    even if marshalling reported one; when the pool has no node selector,
    the run panics in [createProfile]. *)
Theorem runRoot_prints_profile (unicodeFold : Z → Z) (cmd : FlagSet)
    (args : profileCreatorArgs) (mcp : MCP)
    (nodes : list Node) (mcps : list MCP) (node0 : Node) (others : list Node)
    (nodeName : string) (handle : Handle) (handlerErr : option error)
    (reservedSet isolatedSet : string) (selector : option LabelSelector) :
  getDataFromFlags unicodeFold cmd = Returned (args, None) →
  GetMCP pc (mustGatherDirPath args) (mcpName args) = (mcp, None) →
  GetNodeList pc (mustGatherDirPath args) = (nodes, None) →
  GetMCPList pc (mustGatherDirPath args) = (mcps, None) →
  GetNodesForPool pc mcp mcps nodes = (node0 :: others, None) →
  EnsureNodesHaveTheSameHardware pc (mustGatherDirPath args) (node0 :: others) = None →
  GetName pc node0 = Returned nodeName →
  NewGHWHandler pc (mustGatherDirPath args) node0 = (handle, handlerErr) →
  GetReservedAndIsolatedCPUs pc handle (reservedCPUCount args)
    (splitReservedCPUsAcrossNUMA args) = Returned (reservedSet, isolatedSet, None) →
  SpecNodeSelector pc mcp = Returned selector →
  runRoot GroupVersionString MarshallObject pc unicodeFold cmd
  = match selector with
    | None => Panicked "nil pointer dereference"
    | Some labels =>
        Returned
          (None,
           (MarshallObject
              {| profileTypeMeta :=
                   {| Kind := "PerformanceProfile"; APIVersion := GroupVersionString |};
                 profileObjectMeta := {| Name := profileName args |};
                 Spec :=
                   {| SpecCPU := {| Isolated := isolatedSet; Reserved := reservedSet |};
                      NodeSelector := MatchLabels labels;
                      SpecRealTimeKernel := {| Enabled := rtKernel args |};
                      AdditionalKernelArgs := [];
                      SpecNUMA := {| TopologyPolicy := tmPolicy args |} |} |}).1)
    end.
Proof.
  intros Hflags Hmcp Hnodes Hmcps Hpool Hsame Hname Hhandle Hcpus Hsel.
  unfold runRoot, RunE. rewrite Hflags. cbn [mbind outcome_bind].
  rewrite (getProfileData_success args mcp nodes mcps node0 others nodeName handle
             handlerErr reservedSet isolatedSet selector) by done.
  cbn [mbind outcome_bind]. unfold createProfile. by destruct selector.
Qed.

End EndToEnd.

(** ** Instances *)

Lemma getDataFromFlags_error_gives_zero_args_witness :
  ∃ args e, getDataFromFlags (λ r, r) unparsableCount = Returned (args, Some e)
            ∧ args = zeroArgs.
Proof.
  destruct (getDataFromFlags (λ r, r) unparsableCount) as [[args [e|]]|] eqn:Hrun.
  - exists args, e. split; [reflexivity |].
    exact (getDataFromFlags_error_gives_zero_args _ _ _ _ Hrun).
  - vm_compute in Hrun. discriminate Hrun.
  - vm_compute in Hrun. discriminate Hrun.
Defined.

Lemma getDataFromFlags_validated_witness :
  getDataFromFlags (λ r, r) capitalRestricted
  = Returned (argsOf "must-gather" "worker-cnf" "performance" "Restricted" 0 false true,
              None)
  ∧ validateFlag (λ r, r) "Restricted" validTMPolicyValues = None.
Proof.
  split; [reflexivity |].
  exact (proj1 (getDataFromFlags_validated (λ r, r) capitalRestricted
                  (argsOf "must-gather" "worker-cnf" "performance" "Restricted"
                     0 false true) eq_refl)).
Defined.


Lemma getDataFromFlags_mode_only_gates_witness :
  getDataFromFlags (λ r, r) lowLatencyNetworking = getDataFromFlags (λ r, r) init ∧
  RunE failingHandler (λ r, r) lowLatencyNetworking = RunE failingHandler (λ r, r) init.
Proof.
  destruct (getDataFromFlags_mode_only_gates (λ r, r) lowLatencyNetworking init
              "low-latency" "default") as [Hflags Hrun];
    [vm_compute; reflexivity | reflexivity | reflexivity | reflexivity | reflexivity |].
  split; [exact Hflags | exact (Hrun unit unit unit unit failingHandler)].
Defined.

Lemma getDataFromFlags_stores_text_witness :
  capitalRestricted !! "topology-manager-policy" = Some "Restricted" ∧
  getDataFromFlags (λ r, r) capitalRestricted
  = Returned (argsOf "must-gather" "worker-cnf" "performance" "Restricted" 0 false true,
              None).
Proof.
  split; [| reflexivity].
  exact (proj2 (proj2 (proj2
    (getDataFromFlags_stores_text (λ r, r) capitalRestricted
       (argsOf "must-gather" "worker-cnf" "performance" "Restricted" 0 false true)
       eq_refl)))).
Defined.

Lemma getDataFromFlags_exclusive_only_exact_witness :
  exactSplit !! "topology-manager-policy"
  = Some kubeletconfig.SingleNumaNodeTopologyManager ∧
  ∃ splitText, exactSplit !! "split-reserved-cpus-across-numa" = Some splitText ∧
               strconv.ParseBool splitText = (true, None).
Proof.
  apply (getDataFromFlags_exclusive_only_exact (λ r, r) exactSplit zeroArgs
           [OpString "single-numa-node"]).
  reflexivity.
Defined.

Lemma validateFlag_accepts_listed_witness :
  validateFlag (λ r, r) "low-latency" validPowerConsumptionModes = None.
Proof.
  apply validateFlag_accepts_listed.
  apply list_elem_of_further, list_elem_of_further, list_elem_of_here.
Defined.

Lemma validateFlag_monotone_witness :
  validateFlag (λ r, r) "DEFAULT" ["default"] = None ∧
  validateFlag (λ r, r) "DEFAULT" validPowerConsumptionModes = None.
Proof.
  split; [reflexivity |].
  refine (proj1 (validateFlag_monotone (λ r, r) "DEFAULT" ["default"]
                   validPowerConsumptionModes _) eq_refl).
  intros x Hx. apply list_elem_of_singleton in Hx. rewrite Hx.
  apply list_elem_of_here.
Defined.

Lemma getDataFromFlags_keeps_count_witness :
  getDataFromFlags (λ r, r) (<["reserved-cpu-count" := strconv.Itoa (-2)]> init)
  = Returned (argsOf "must-gather" "worker-cnf" "performance" "restricted" (-2)
                false true, None).
Proof.
  refine (getDataFromFlags_keeps_count (λ r, r) init
            (argsOf "must-gather" "worker-cnf" "performance" "restricted" 0 false true)
            (-2) _ eq_refl).
  split; intros Hgt; discriminate Hgt.
Defined.

Lemma getProfileData_data_or_error_witness :
  ∃ data err, getProfileData failingHandler zeroArgs = Returned (data, err)
              ∧ (is_Some data ↔ err = None).
Proof.
  destruct (getProfileData failingHandler zeroArgs) as [[data err]|] eqn:Hrun.
  - exists data, err. split; [reflexivity |].
    exact (proj1 (getProfileData_data_or_error failingHandler zeroArgs data err Hrun)).
  - vm_compute in Hrun. discriminate Hrun.
Defined.

Lemma getProfileData_panics_without_nodes_witness :
  getProfileData (withNodesForPool (λ _ _ _, ([], None)) failingHandler) zeroArgs
  = Panicked "index out of range [0] with length 0".
Proof.
  apply (getProfileData_panics_without_nodes
           (withNodesForPool (λ _ _ _, ([], None)) failingHandler)
           zeroArgs () [()] [()]); reflexivity.
Defined.

Lemma getProfileData_stops_at_differing_nodes_witness :
  getProfileData differingNodes zeroArgs
  = Returned (None,
              Some (Errorf "targeted nodes differ: %v"
                      [OpError (ErrNew "nodes worker-0 and worker-1 have different topology")])) ∧
  getProfileData differingNodesOtherCPUs zeroArgs = getProfileData differingNodes zeroArgs.
Proof.
  apply (getProfileData_stops_at_differing_nodes differingNodes differingNodesOtherCPUs
           zeroArgs () [(); ()] [()] [(); ()]);
    [repeat split | reflexivity ..].
Defined.

Lemma getProfileData_first_node_is_representative_witness :
  getProfileData (withNodesForPool (λ _ _ _, ([(); ()], None)) failingHandler) zeroArgs
  = getProfileData (withNodesForPool (λ _ _ _, ([()], None)) failingHandler) zeroArgs.
Proof.
  apply (getProfileData_first_node_is_representative failingHandler
           (λ _ _ _, ([(); ()], None)) (λ _ _ _, ([()], None)) zeroArgs).
  intros mcp mcps nodes. repeat split.
Defined.

Lemma runRoot_prints_profile_witness :
  runRoot "performance.openshift.io/v2" marshallCPUSets workerCnfPool (λ r, r) init
  = Returned (None, "0-3;4-15").
Proof.
  exact (runRoot_prints_profile "performance.openshift.io/v2" marshallCPUSets
           workerCnfPool (λ r, r) init
           (argsOf "must-gather" "worker-cnf" "performance" "restricted" 0 false true)
           () [()] [()] () [] "worker-0" () None "0-3" "4-15"
           (Some {| MatchLabels := {["node-role.kubernetes.io/worker-cnf" := ""]} |})
           eq_refl eq_refl eq_refl eq_refl eq_refl eq_refl eq_refl eq_refl eq_refl
           eq_refl).
Defined.

